(** * TempMCCalc/temperatureCalculator.py: walk-on-spheres temperature estimate

    A shallow embedding of the class [TemperatureProblem].

    Numbers.  Python floats (and the ints the caller may pass) are read as
    real numbers, [np.cos], [np.sin] and [np.pi] as [cos], [sin] and [PI];
    rounding is not modelled.

    Randomness.  [np.random.rand()] is the only source of randomness.  A call
    of [get_poi_temp] receives the sequence [rand : nat -> R] of the values
    its successive draws return; draw number [k] (counted from 0 inside the
    call) returns [rand k].

    Interrupts.  [interrupt k = true] says that a [KeyboardInterrupt] is
    raised while the [try] block of loop iteration [k] runs.  Whatever
    statement of the block it hits, the handler runs next and leaves the same
    state, so one flag per iteration is enough.

    Loops.  The [while] loop of [get_poi_temp] need not terminate; it is run
    with a fuel that counts executions of its body, and [Continue] is what is
    left when the fuel is used up. *)

From Stdlib Require Import String Reals Lra Lia List Bool Arith.
Import ListNotations.

Open Scope R_scope.

(** ** Module constants *)

Definition WALL_EPSILON : R := 5 / 100.
Definition DICE_ROLLS_PER_DOT : nat := 10 ^ 3.

(** ** Python values and outcomes *)

Inductive exn : Type :=
| Exception (msg : string)
| IndexError
| TypeError.

Inductive outcome (A : Type) : Type :=
| Returned (v : A)
| Raised (e : exn).

Arguments Returned {A} v.
Arguments Raised {A} e.

(** [a <= b] as Python evaluates it on two floats. *)
Definition Rleb (a b : R) : bool := if Rle_dec a b then true else false.

(** [min(a, b, c, d)] *)
Definition min4 (a b c d : R) : R := Rmin (Rmin (Rmin a b) c) d.

(** [np.mean(np.array(l))] *)
Definition mean (l : list R) : R := fold_right Rplus 0 l / INR (length l).

(** ** The object *)

Record TemperatureProblem : Type := mkTemperatureProblem {
  xDim : R;
  yDim : R;
  borderTemps : list R;
  xPOI : option R;
  yPOI : option R;
  CalculatedPOIArray : option (list R);
  CurrentPointArray : list R
}.

Definition set_POI (self : TemperatureProblem) (x y : option R) :=
  {| xDim := xDim self; yDim := yDim self; borderTemps := borderTemps self;
     xPOI := x; yPOI := y;
     CalculatedPOIArray := CalculatedPOIArray self;
     CurrentPointArray := CurrentPointArray self |}.

Definition set_CurrentPointArray (self : TemperatureProblem) (l : list R) :=
  {| xDim := xDim self; yDim := yDim self; borderTemps := borderTemps self;
     xPOI := xPOI self; yPOI := yPOI self;
     CalculatedPOIArray := CalculatedPOIArray self;
     CurrentPointArray := l |}.

(** [TemperatureProblem(xdim, ydim, temp)]: the three arguments are stored as
    they come. *)
Definition __init__ (xdim ydim : R) (temp : list R) : outcome TemperatureProblem :=
  Returned {| xDim := xdim; yDim := ydim; borderTemps := temp;
              xPOI := None; yPOI := None;
              CalculatedPOIArray := None;
              CurrentPointArray := [] |}.

(** The property [poi_is_inside]; comparing [None] with a number raises
    [TypeError], and [or] does not evaluate its right operand when the left
    one is true. *)
Definition poi_is_inside (self : TemperatureProblem) : outcome bool :=
  match xPOI self with
  | None => Raised TypeError
  | Some x =>
      if Rleb 0 x && Rleb x (xDim self) then Returned true
      else match yPOI self with
           | None => Raised TypeError
           | Some y =>
               if Rleb 0 y && Rleb y (yDim self) then Returned true
               else Returned false
           end
  end.

Definition point_is_next_to_wall (self : TemperatureProblem) (x y : R) : option nat :=
  if Rleb x WALL_EPSILON then Some 2%nat
  else if Rleb y WALL_EPSILON then Some 0%nat
  else if Rleb (xDim self - x) WALL_EPSILON then Some 1%nat
  else if Rleb (yDim self - y) WALL_EPSILON then Some 3%nat
  else None.

(** [u] is the value [np.random.rand()] returns in this call. *)
Definition get_circle_and_rnd_point (self : TemperatureProblem) (x_pr y_pr u : R) : R * R :=
  let cir_rad := min4 (xDim self - x_pr) (yDim self - y_pr) x_pr y_pr in
  let angle := u * 2 * PI in
  (x_pr + cir_rad * cos angle, y_pr + cir_rad * sin angle).

(** ** The loop of [get_poi_temp] *)

(** The object and the local variables [curr_x], [curr_y]. *)
Record frame : Type := mkFrame {
  obj : TemperatureProblem;
  curr_x : option R;
  curr_y : option R
}.

Inductive status : Type :=
| Continue (f : frame)
| Return (v : option R) (self : TemperatureProblem)
| Raise (e : exn) (self : TemperatureProblem).

(** The body of the [try] block, lines 96 to 102, when no interrupt arrives. *)
Definition try_body (u : R) (f : frame) : status :=
  match curr_x f, curr_y f with
  | Some cx, Some cy =>
      let '(nx, ny) := get_circle_and_rnd_point (obj f) cx cy u in
      match point_is_next_to_wall (obj f) nx ny with
      | None => Continue (mkFrame (obj f) (Some nx) (Some ny))
      | Some wall =>
          match nth_error (borderTemps (obj f)) wall with
          | Some t =>
              Continue (mkFrame
                          (set_CurrentPointArray (obj f) (CurrentPointArray (obj f) ++ [t]))
                          (xPOI (obj f)) (yPOI (obj f)))
          | None => Raise IndexError (obj f)
          end
      end
  | _, _ => Raise TypeError (obj f)
  end.

(** The handler [except KeyboardInterrupt], lines 103 to 108. *)
Definition on_KeyboardInterrupt (f : frame) : status :=
  Return None (set_POI (set_CurrentPointArray (obj f) []) None None).

(** Lines 110 to 113, after the loop. *)
Definition after_loop (f : frame) : status :=
  Return (Some (mean (CurrentPointArray (obj f))))
         (set_CurrentPointArray (obj f) []).

Section Run.

(** What this call's draws return, and the iterations that are interrupted. *)
Variable rand : nat -> R.
Variable interrupt : nat -> bool.

(** [while len(self.CurrentPointArray) < DICE_ROLLS_PER_DOT: ...], entered
    at iteration [k] with [fuel] executions of the body left. *)
Fixpoint while_loop (fuel k : nat) (f : frame) : status :=
  if (length (CurrentPointArray (obj f)) <? DICE_ROLLS_PER_DOT)%nat then
    match fuel with
    | O => Continue f
    | S fuel' =>
        if interrupt k then on_KeyboardInterrupt f
        else match try_body (rand k) f with
             | Continue f' => while_loop fuel' (S k) f'
             | s => s
             end
    end
  else after_loop f.

Definition get_poi_temp (fuel : nat) (self : TemperatureProblem) (x y : R) : status :=
  let self1 := set_POI self (Some x) (Some y) in
  match poi_is_inside self1 with
  | Raised e => Raise e self1
  | Returned false => Raise (Exception "POI must be inside initial rectangle!") self1
  | Returned true => while_loop fuel 0 (mkFrame self1 (Some x) (Some y))
  end.

End Run.

Definition no_interrupt : nat -> bool := fun _ => false.

(** One interrupt, during iteration [k]. *)
Definition interrupt_at (k : nat) : nat -> bool := fun j => (j =? k)%nat.

(** Where the walk is after [n] steps from [p], taking the draws from number
    [k] on and testing no wall. *)
Fixpoint walk (rand : nat -> R) (self : TemperatureProblem) (n k : nat) (p : R * R) : R * R :=
  match n with
  | O => p
  | S n' => walk rand self n' (S k) (get_circle_and_rnd_point self (fst p) (snd p) (rand k))
  end.

(** None of these [n] steps lands next to a wall. *)
Fixpoint roams (rand : nat -> R) (self : TemperatureProblem) (n k : nat) (p : R * R) : bool :=
  match n with
  | O => true
  | S n' =>
      let p' := get_circle_and_rnd_point self (fst p) (snd p) (rand k) in
      match point_is_next_to_wall self (fst p') (snd p') with
      | None => roams rand self n' (S k) p'
      | Some _ => false
      end
  end.

(** Draws that return 0 and 1/2 in turn: the angles 0 and pi. *)
Definition bounce : nat -> R := fun k => if Nat.even k then 0 else 1 / 2.

(** The object built in [__main__]: [TemperatureProblem(15, 10, [10, 5, 5, 20])]. *)
Definition plate : TemperatureProblem :=
  {| xDim := 15; yDim := 10; borderTemps := [10; 5; 5; 20];
     xPOI := None; yPOI := None;
     CalculatedPOIArray := None;
     CurrentPointArray := [] |}.

(** The object a status carries (for [Continue], the one of its frame). *)
Definition status_obj (s : status) : TemperatureProblem :=
  match s with
  | Continue f => obj f
  | Return _ self => self
  | Raise _ self => self
  end.

(** Two objects that differ at most in the fields [get_poi_temp] assigns:
    [xPOI], [yPOI] and [CurrentPointArray]. *)
Definition same_config (s1 s2 : TemperatureProblem) : Prop :=
  xDim s1 = xDim s2 /\ yDim s1 = yDim s2 /\ borderTemps s1 = borderTemps s2 /\
  CalculatedPOIArray s1 = CalculatedPOIArray s2.

(** ** The specification's reading of the same operations

    These definitions follow the wording of the specification (its sections
    3, 4.1, 4.2 and 4.3), not the code; the theorems below compare them with
    the code. *)

Module Spec.

Inductive WallId : Type := Bottom | Right | Left | Top.

(** "0 = bottom edge, 1 = right edge, 2 = left edge, 3 = top edge" *)
Definition wall_index (w : WallId) : nat :=
  match w with
  | Bottom => 0
  | Right => 1
  | Left => 2
  | Top => 3
  end.

Record Domain : Type := mkDomain {
  width : R;
  height : R;
  edgeTemperatures : list R
}.

(** "Invariant: width > 0, height > 0; edgeTemperatures has length exactly 4" *)
Definition valid (d : Domain) : Prop :=
  0 < width d /\ 0 < height d /\ length (edgeTemperatures d) = 4%nat.

(** "must satisfy 0 <= x <= width and 0 <= y <= height" *)
Definition valid_query (d : Domain) (x y : R) : Prop :=
  (0 <= x <= width d) /\ (0 <= y <= height d).

(** "left wall (x <= eps) first, then bottom wall (y <= eps), then right wall
    (width - x <= eps), then top wall (height - y <= eps)" *)
Definition wall_checks (d : Domain) (eps x y : R) : list (WallId * bool) :=
  [ (Left, Rleb x eps);
    (Bottom, Rleb y eps);
    (Right, Rleb (width d - x) eps);
    (Top, Rleb (height d - y) eps) ].

(** "... and returns the first match" *)
Definition wallNear (d : Domain) (eps x y : R) : option WallId :=
  option_map fst (find snd (wall_checks d eps x y)).

(** "r = min(distance to left wall, distance to right wall, distance to
    bottom wall, distance to top wall)" *)
Definition step_radius (d : Domain) (x y : R) : R :=
  Rmin x (Rmin (width d - x) (Rmin y (height d - y))).

(** "New position = current position + (r cos theta, r sin theta)" *)
Definition displace (d : Domain) (x y theta : R) : R * R :=
  (x + step_radius d x y * cos theta, y + step_radius d x y * sin theta).

Definition temperature_of (d : Domain) (w : WallId) : R :=
  nth (wall_index w) (edgeTemperatures d) 0.

Section Estimator.

Variable d : Domain.
Variable eps : R.
(** [theta k] is the angle of draw number [k]. *)
Variable theta : nat -> R.
(** The query point. *)
Variables x y : R.

(** One trial in progress at position [(px, py)]: "repeatedly apply the
    displacement step and boundary test until a wall is hit".  The result
    is the wall, the number of the next draw and the steps left. *)
Fixpoint trial (steps k : nat) (px py : R) : option (WallId * nat * nat) :=
  match steps with
  | O => None
  | S steps' =>
      let '(nx, ny) := displace d px py (theta k) in
      match wallNear d eps nx ny with
      | Some w => Some (w, S k, steps')
      | None => trial steps' (S k) nx ny
      end
  end.

(** "repeat trialCount times: reset the walk position to (x, y); ...;
    record that wall's configured temperature as one sample" *)
Fixpoint trials (trialCount steps k : nat) (samples : list R) : option (list R) :=
  match trialCount with
  | O => Some samples
  | S n =>
      match trial steps k x y with
      | Some (w, k', steps') => trials n steps' k' (samples ++ [temperature_of d w])
      | None => None
      end
  end.

(** "After trialCount samples are collected, return their arithmetic
    mean."  [None]: the [steps] allowed do not suffice. *)
Definition estimateTemperature (trialCount steps : nat) : option R :=
  option_map mean (trials trialCount steps 0 []).

End Estimator.

End Spec.

(** The Domain part of the object. *)
Definition domain_of (self : TemperatureProblem) : Spec.Domain :=
  {| Spec.width := xDim self;
     Spec.height := yDim self;
     Spec.edgeTemperatures := borderTemps self |}.

(** The angle of each draw, as line 73 computes it. *)
Definition angle_of (rand : nat -> R) : nat -> R := fun k => rand k * 2 * PI.

(** ** Notions for the loop's invariants *)

(** The closed rectangle of the object. *)
Definition in_plate (self : TemperatureProblem) (x y : R) : Prop :=
  (0 <= x <= xDim self) /\ (0 <= y <= yDim self).

(** Every value of [l] is one of the object's wall temperatures. *)
Definition wall_temperatures (self : TemperatureProblem) (l : list R) : Prop :=
  Forall (fun t => In t (borderTemps self)) l.

(** What holds of the frame when control is at the [while] test of a call
    [get_poi_temp(x, y)] on [self] that has run [k] iterations. *)
Definition loop_invariant (self : TemperatureProblem) (x y : R) (k : nat) (f : frame) : Prop :=
  same_config (obj f) self /\
  xPOI (obj f) = Some x /\ yPOI (obj f) = Some y /\
  (exists px py, curr_x f = Some px /\ curr_y f = Some py /\
                 (in_plate self x y -> in_plate self px py)) /\
  (exists new, CurrentPointArray (obj f) = CurrentPointArray self ++ new /\
               wall_temperatures self new /\ (length new <= k)%nat) /\
  ((length (CurrentPointArray self) <= DICE_ROLLS_PER_DOT)%nat ->
   (length (CurrentPointArray (obj f)) <= DICE_ROLLS_PER_DOT)%nat).

(** What holds of the status of such a call when it was given [n] iterations. *)
Definition loop_outcome (interrupt : nat -> bool) (self : TemperatureProblem) (x y : R)
           (n : nat) (st : status) : Prop :=
  match st with
  | Continue f =>
      loop_invariant self x y n f /\
      (length (CurrentPointArray (obj f)) < DICE_ROLLS_PER_DOT)%nat
  | Return (Some t) s =>
      same_config s self /\ xPOI s = Some x /\ yPOI s = Some y /\
      exists new,
        t = mean (CurrentPointArray self ++ new) /\
        wall_temperatures self new /\ (length new <= n)%nat /\
        (DICE_ROLLS_PER_DOT <= length (CurrentPointArray self ++ new))%nat /\
        ((length (CurrentPointArray self) <= DICE_ROLLS_PER_DOT)%nat ->
         length (CurrentPointArray self ++ new) = DICE_ROLLS_PER_DOT)
  | Return None s =>
      xPOI s = None /\ yPOI s = None /\
      exists j, (j < n)%nat /\ interrupt j = true
  | Raise e s =>
      e = IndexError /\ (length (borderTemps self) < 4)%nat /\
      xPOI s = Some x /\ yPOI s = Some y /\
      exists new, CurrentPointArray s = CurrentPointArray self ++ new /\
                  wall_temperatures self new
  end.

(** An object like [plate] with a single wall temperature, and draws that
    return 3/4 (the angle 3 pi / 2) first and 0 afterwards. *)
Definition short_plate : TemperatureProblem :=
  {| xDim := 15; yDim := 10; borderTemps := [10];
     xPOI := None; yPOI := None;
     CalculatedPOIArray := None;
     CurrentPointArray := [] |}.

Definition south_then_east : nat -> R := fun k => if (k =? 0)%nat then 3 / 4 else 0.

(** ** Comparisons and small facts *)

Lemma Rleb_true (a b : R) : Rleb a b = true <-> a <= b.
Proof.
  unfold Rleb. destruct (Rle_dec a b); split; intros; auto; discriminate.
Qed.

Lemma Rleb_false (a b : R) : Rleb a b = false <-> b < a.
Proof.
  unfold Rleb. destruct (Rle_dec a b); split; intros; try discriminate; try lra; auto.
Qed.

Lemma Rleb_le (a b : R) : a <= b -> Rleb a b = true.
Proof. apply Rleb_true. Qed.

Lemma Rleb_gt (a b : R) : b < a -> Rleb a b = false.
Proof. apply Rleb_false. Qed.

Lemma WALL_EPSILON_pos : 0 < WALL_EPSILON.
Proof. unfold WALL_EPSILON. lra. Qed.

Lemma DICE_ROLLS_PER_DOT_value : DICE_ROLLS_PER_DOT = 1000%nat.
Proof. reflexivity. Qed.

(** Decide every [Rmin] of the goal. *)
Ltac case_Rmin :=
  repeat match goal with
         | |- context [Rmin ?p ?q] =>
             let H := fresh "Hmin" in
             destruct (Rle_dec p q) as [H | H];
             [ rewrite (Rmin_left p q H) in *
             | rewrite (Rmin_right p q) in * by lra ]
         | H0 : context [Rmin ?p ?q] |- _ =>
             let H := fresh "Hmin" in
             destruct (Rle_dec p q) as [H | H];
             [ rewrite (Rmin_left p q H) in *
             | rewrite (Rmin_right p q) in * by lra ]
         end.

Lemma min4_spec (a b c d : R) :
  min4 a b c d <= a /\ min4 a b c d <= b /\ min4 a b c d <= c /\ min4 a b c d <= d /\
  (min4 a b c d = a \/ min4 a b c d = b \/ min4 a b c d = c \/ min4 a b c d = d).
Proof.
  unfold min4. case_Rmin; repeat split; try lra; tauto.
Qed.

Lemma min4_reorder (a b c d : R) :
  min4 a b c d = Rmin c (Rmin a (Rmin d b)).
Proof.
  unfold min4. case_Rmin; lra.
Qed.

Lemma sum_repeat (t : R) (n : nat) :
  fold_right Rplus 0 (repeat t n) = INR n * t.
Proof.
  induction n as [|n IH].
  - simpl. lra.
  - rewrite S_INR. cbn [repeat fold_right]. rewrite IH. lra.
Qed.

Lemma mean_repeat (t : R) (n : nat) : n <> O -> mean (repeat t n) = t.
Proof.
  intros Hn. unfold mean. rewrite sum_repeat, repeat_length.
  assert (INR n <> 0) by (apply not_0_INR; exact Hn).
  field. assumption.
Qed.

(** ** The code against the specification's definitions *)

Lemma point_is_next_to_wall_wallNear (self : TemperatureProblem) (x y : R) :
  point_is_next_to_wall self x y =
  option_map Spec.wall_index (Spec.wallNear (domain_of self) WALL_EPSILON x y).
Proof.
  unfold point_is_next_to_wall, Spec.wallNear, Spec.wall_checks. cbn [domain_of Spec.width Spec.height].
  destruct (Rleb x WALL_EPSILON); [reflexivity|].
  destruct (Rleb y WALL_EPSILON); [reflexivity|].
  destruct (Rleb (xDim self - x) WALL_EPSILON); [reflexivity|].
  destruct (Rleb (yDim self - y) WALL_EPSILON); reflexivity.
Qed.

Lemma get_circle_and_rnd_point_displace (self : TemperatureProblem) (x y u : R) :
  get_circle_and_rnd_point self x y u = Spec.displace (domain_of self) x y (u * 2 * PI).
Proof.
  unfold get_circle_and_rnd_point, Spec.displace, Spec.step_radius.
  cbn [domain_of Spec.width Spec.height].
  rewrite min4_reorder. reflexivity.
Qed.

Lemma point_is_next_to_wall_range (self : TemperatureProblem) (x y : R) (w : nat) :
  point_is_next_to_wall self x y = Some w -> (w < 4)%nat.
Proof.
  unfold point_is_next_to_wall.
  repeat match goal with |- context [Rleb ?p ?q] => destruct (Rleb p q) end;
    intros H; inversion H; lia.
Qed.

Lemma nth_error_nth_default (l : list R) (n : nat) :
  (n < length l)%nat -> nth_error l n = Some (nth n l 0).
Proof.
  intros H. apply nth_error_nth'. exact H.
Qed.

(** ** Unfolding the loop *)

Section RunFacts.

Variable rand : nat -> R.
Variable interrupt : nat -> bool.

Lemma while_loop_done (fuel k : nat) (f : frame) :
  (DICE_ROLLS_PER_DOT <= length (CurrentPointArray (obj f)))%nat ->
  while_loop rand interrupt fuel k f = after_loop f.
Proof.
  intros H. apply Nat.ltb_ge in H.
  destruct fuel; cbn [while_loop]; rewrite H; reflexivity.
Qed.

Lemma while_loop_pause (k : nat) (f : frame) :
  (length (CurrentPointArray (obj f)) < DICE_ROLLS_PER_DOT)%nat ->
  while_loop rand interrupt 0 k f = Continue f.
Proof.
  intros H. apply Nat.ltb_lt in H. cbn [while_loop]. rewrite H. reflexivity.
Qed.

Lemma while_loop_step (fuel k : nat) (f : frame) :
  (length (CurrentPointArray (obj f)) < DICE_ROLLS_PER_DOT)%nat ->
  while_loop rand interrupt (S fuel) k f =
  if interrupt k then on_KeyboardInterrupt f
  else match try_body (rand k) f with
       | Continue f' => while_loop rand interrupt fuel (S k) f'
       | s => s
       end.
Proof.
  intros H. apply Nat.ltb_lt in H. cbn [while_loop]. rewrite H. reflexivity.
Qed.

(** A step that lands next to no wall moves the walk. *)
Lemma try_body_move (u cx cy nx ny : R) (self : TemperatureProblem) :
  get_circle_and_rnd_point self cx cy u = (nx, ny) ->
  point_is_next_to_wall self nx ny = None ->
  try_body u (mkFrame self (Some cx) (Some cy)) =
  Continue (mkFrame self (Some nx) (Some ny)).
Proof.
  intros Hp Hw. unfold try_body. cbn [obj curr_x curr_y].
  rewrite Hp, Hw. reflexivity.
Qed.

(** A step that lands next to wall [w] records its temperature and puts the
    walk back at the point of interest. *)
Lemma try_body_hit (u cx cy nx ny : R) (self : TemperatureProblem) (w : nat) :
  get_circle_and_rnd_point self cx cy u = (nx, ny) ->
  point_is_next_to_wall self nx ny = Some w ->
  (w < length (borderTemps self))%nat ->
  try_body u (mkFrame self (Some cx) (Some cy)) =
  Continue (mkFrame
              (set_CurrentPointArray self (CurrentPointArray self ++ [nth w (borderTemps self) 0]))
              (xPOI self) (yPOI self)).
Proof.
  intros Hp Hw Hlen. unfold try_body. cbn [obj curr_x curr_y].
  rewrite Hp, Hw, (nth_error_nth_default _ _ Hlen). reflexivity.
Qed.

End RunFacts.

(** ** The loop runs the specification's trials *)

Section Trials.

Variable rand : nat -> R.
Variables x y : R.

(** A trial in progress: the loop walks until the wall the specification's
    trial finds, appends its temperature and is back at the point of
    interest; when the steps do not suffice, neither do they for the loop. *)
Lemma while_loop_trial (steps k : nat) (px py : R) (self : TemperatureProblem) :
  (length (CurrentPointArray self) < DICE_ROLLS_PER_DOT)%nat ->
  length (borderTemps self) = 4%nat ->
  xPOI self = Some x -> yPOI self = Some y ->
  match Spec.trial (domain_of self) WALL_EPSILON (angle_of rand) steps k px py with
  | Some (w, k', steps') =>
      while_loop rand no_interrupt steps k (mkFrame self (Some px) (Some py)) =
      while_loop rand no_interrupt steps' k'
        (mkFrame (set_CurrentPointArray self
                    (CurrentPointArray self ++ [Spec.temperature_of (domain_of self) w]))
                 (Some x) (Some y))
  | None =>
      exists f, while_loop rand no_interrupt steps k (mkFrame self (Some px) (Some py)) = Continue f
  end.
Proof.
  intros Hlen Htemps Hx Hy. revert k px py.
  induction steps as [|steps IH]; intros k px py.
  - cbn [Spec.trial]. eexists. apply while_loop_pause. exact Hlen.
  - cbn [Spec.trial]. rewrite while_loop_step by exact Hlen.
    unfold no_interrupt at 1. cbv beta.
    unfold angle_of at 1.
    rewrite <- get_circle_and_rnd_point_displace.
    destruct (get_circle_and_rnd_point self px py (rand k)) as [nx ny] eqn:Hp.
    pose proof (point_is_next_to_wall_wallNear self nx ny) as Hw.
    destruct (Spec.wallNear (domain_of self) WALL_EPSILON nx ny) as [w|] eqn:Hnear;
      cbn [option_map] in Hw.
    + assert (Hr : (Spec.wall_index w < length (borderTemps self))%nat).
      { rewrite Htemps. eapply point_is_next_to_wall_range. exact Hw. }
      rewrite (try_body_hit _ _ _ _ _ _ _ Hp Hw Hr), Hx, Hy. reflexivity.
    + rewrite (try_body_move _ _ _ _ _ _ Hp Hw). apply IH.
Qed.

(** With [n] samples still to collect, the loop returns the mean of the
    samples the specification's [n] trials add. *)
Lemma while_loop_trials (n steps k : nat) (self : TemperatureProblem) :
  (length (CurrentPointArray self) + n = DICE_ROLLS_PER_DOT)%nat ->
  length (borderTemps self) = 4%nat ->
  xPOI self = Some x -> yPOI self = Some y ->
  match Spec.trials (domain_of self) WALL_EPSILON (angle_of rand) x y n steps k (CurrentPointArray self) with
  | Some samples =>
      while_loop rand no_interrupt steps k (mkFrame self (Some x) (Some y)) =
      Return (Some (mean samples)) (set_CurrentPointArray self [])
  | None =>
      exists f, while_loop rand no_interrupt steps k (mkFrame self (Some x) (Some y)) = Continue f
  end.
Proof.
  revert steps k self.
  induction n as [|n IH]; intros steps k self Hlen Htemps Hx Hy.
  - cbn [Spec.trials]. rewrite while_loop_done by (cbn [obj]; lia). reflexivity.
  - cbn [Spec.trials].
    assert (Hlt : (length (CurrentPointArray self) < DICE_ROLLS_PER_DOT)%nat) by lia.
    pose proof (while_loop_trial steps k x y self Hlt Htemps Hx Hy) as Ht.
    destruct (Spec.trial (domain_of self) WALL_EPSILON (angle_of rand) steps k x y)
      as [[[w k'] steps']|].
    + rewrite Ht.
      set (self' := set_CurrentPointArray self
                      (CurrentPointArray self ++ [Spec.temperature_of (domain_of self) w])).
      specialize (IH steps' k' self').
      cbn [self' set_CurrentPointArray CurrentPointArray borderTemps xPOI yPOI] in IH.
      rewrite length_app in IH. cbn [length] in IH.
      apply IH; [lia | exact Htemps | exact Hx | exact Hy].
    + exact Ht.
Qed.

End Trials.

(** ** Evaluating on concrete numbers *)

Ltac eval_Rleb :=
  repeat match goal with
         | |- context [Rleb ?a ?b] =>
             first [ rewrite (Rleb_le a b) by (unfold WALL_EPSILON; lra)
                   | rewrite (Rleb_gt a b) by (unfold WALL_EPSILON; lra) ]
         end.

Ltac eval_Rmin :=
  repeat match goal with
         | |- context [Rmin ?a ?b] =>
             first [ rewrite (Rmin_left a b) by lra
                   | rewrite (Rmin_right a b) by lra ]
         end.

Lemma angle_of_zero (k : nat) : angle_of (fun _ => 0) k = 0.
Proof. unfold angle_of. lra. Qed.

Lemma plate_displace_east (px : R) :
  5 <= px <= 10 ->
  Spec.displace (domain_of plate) px 5 0 = (px + 5, 5).
Proof.
  intros H. unfold Spec.displace, Spec.step_radius.
  cbn [domain_of plate Spec.width Spec.height xDim yDim].
  rewrite cos_0, sin_0.
  replace (Rmin px (Rmin (15 - px) (Rmin 5 (10 - 5)))) with 5 by (eval_Rmin; lra).
  f_equal; lra.
Qed.

Lemma plate_wallNear (px py : R) :
  Spec.wallNear (domain_of plate) WALL_EPSILON px py =
  if Rleb px WALL_EPSILON then Some Spec.Left
  else if Rleb py WALL_EPSILON then Some Spec.Bottom
  else if Rleb (15 - px) WALL_EPSILON then Some Spec.Right
  else if Rleb (10 - py) WALL_EPSILON then Some Spec.Top
  else None.
Proof.
  unfold Spec.wallNear, Spec.wall_checks.
  cbn [domain_of plate Spec.width Spec.height xDim yDim find snd].
  repeat match goal with |- context [Rleb ?a ?b] => destruct (Rleb a b) end; reflexivity.
Qed.

(** On the plate of [__main__], from (5, 5), with every draw returning 0: the
    first step lands on (10, 5), the second on (15, 5), next to the right
    wall. *)
Lemma plate_trial_east (steps k : nat) :
  Spec.trial (domain_of plate) WALL_EPSILON (angle_of (fun _ => 0)) (S (S steps)) k 5 5 =
  Some (Spec.Right, S (S k), steps).
Proof.
  cbn [Spec.trial]. rewrite !angle_of_zero.
  rewrite plate_displace_east by lra.
  replace (5 + 5) with 10 by lra.
  rewrite plate_wallNear. eval_Rleb.
  rewrite plate_displace_east by lra.
  replace (10 + 5) with 15 by lra.
  rewrite plate_wallNear. eval_Rleb. reflexivity.
Qed.

Lemma plate_trials_east (n steps k : nat) (samples : list R) :
  Spec.trials (domain_of plate) WALL_EPSILON (angle_of (fun _ => 0)) 5 5 n (2 * n + steps) k samples =
  Some (samples ++ repeat 5 n).
Proof.
  revert k samples. induction n as [|n IH]; intros k samples.
  - cbn [Spec.trials repeat]. rewrite app_nil_r. reflexivity.
  - replace (2 * S n + steps)%nat with (S (S (2 * n + steps))) by lia.
    cbn [Spec.trials]. rewrite plate_trial_east, IH.
    unfold Spec.temperature_of. cbn [Spec.wall_index domain_of Spec.edgeTemperatures plate borderTemps nth].
    rewrite <- app_assoc. reflexivity.
Qed.

Lemma plate_estimate_east :
  Spec.estimateTemperature (domain_of plate) WALL_EPSILON (angle_of (fun _ => 0)) 5 5
                           DICE_ROLLS_PER_DOT 2000 = Some 5.
Proof.
  unfold Spec.estimateTemperature.
  change 2000%nat with (2 * DICE_ROLLS_PER_DOT + 0)%nat.
  rewrite plate_trials_east. cbn [app option_map].
  rewrite mean_repeat; [reflexivity | discriminate].
Qed.

Lemma poi_is_inside_set_POI (self : TemperatureProblem) (x y : R) :
  poi_is_inside (set_POI self (Some x) (Some y)) =
  Returned ((Rleb 0 x && Rleb x (xDim self)) || (Rleb 0 y && Rleb y (yDim self))).
Proof.
  unfold poi_is_inside. cbn [set_POI xPOI yPOI xDim yDim].
  destruct (Rleb 0 x && Rleb x (xDim self)); [reflexivity|].
  destruct (Rleb 0 y && Rleb y (yDim self)); reflexivity.
Qed.

(** ** More steps change nothing once the trials fit *)

Lemma trial_more_steps (d : Spec.Domain) (eps : R) (theta : nat -> R)
      (steps k : nat) (px py : R) (w : Spec.WallId) (k' steps' : nat) :
  Spec.trial d eps theta steps k px py = Some (w, k', steps') ->
  forall more, Spec.trial d eps theta (steps + more) k px py = Some (w, k', (steps' + more)%nat).
Proof.
  revert k px py. induction steps as [|steps IH]; intros k px py; [discriminate|].
  cbn [Spec.trial Nat.add].
  destruct (Spec.displace d px py (theta k)) as [nx ny].
  destruct (Spec.wallNear d eps nx ny).
  - intros H more. inversion H. reflexivity.
  - apply IH.
Qed.

Lemma trials_more_steps (d : Spec.Domain) (eps : R) (theta : nat -> R) (x y : R)
      (n steps k : nat) (samples result : list R) :
  Spec.trials d eps theta x y n steps k samples = Some result ->
  forall more, Spec.trials d eps theta x y n (steps + more) k samples = Some result.
Proof.
  revert steps k samples. induction n as [|n IH]; intros steps k samples; [trivial|].
  cbn [Spec.trials].
  destruct (Spec.trial d eps theta steps k x y) as [[[w k'] steps']|] eqn:Ht; [|discriminate].
  intros H more. rewrite (trial_more_steps _ _ _ _ _ _ _ _ _ _ Ht more).
  apply IH. exact H.
Qed.

Lemma estimateTemperature_more_steps (d : Spec.Domain) (eps : R) (theta : nat -> R)
      (x y : R) (n steps : nat) (t : R) :
  Spec.estimateTemperature d eps theta x y n steps = Some t ->
  forall more, Spec.estimateTemperature d eps theta x y n (steps + more) = Some t.
Proof.
  unfold Spec.estimateTemperature.
  destruct (Spec.trials d eps theta x y n steps 0 []) as [l|] eqn:Hl; [|discriminate].
  intros H more. rewrite (trials_more_steps _ _ _ _ _ _ _ _ _ _ Hl more). exact H.
Qed.

(** ** C1: the estimator *)

(** C1.  For a point the validation accepts, on an object holding four wall
    temperatures and no sample, [get_poi_temp] run for [steps] walk steps does
    what the specification's estimator does with [DICE_ROLLS_PER_DOT] = 1000
    trials: each trial starts at (x, y), steps and tests until a wall is hit
    and records that wall's temperature; when the 1000 trials fit in [steps]
    steps the call, given these steps or more, returns the arithmetic mean of
    the 1000 samples, and otherwise the loop is still running after [steps]
    steps. *)
Theorem get_poi_temp_runs_trials (rand : nat -> R) (steps : nat)
        (self : TemperatureProblem) (x y : R) :
  poi_is_inside (set_POI self (Some x) (Some y)) = Returned true ->
  length (borderTemps self) = 4%nat ->
  CurrentPointArray self = [] ->
  DICE_ROLLS_PER_DOT = 1000%nat /\
  match Spec.estimateTemperature (domain_of self) WALL_EPSILON (angle_of rand) x y
                                 DICE_ROLLS_PER_DOT steps with
  | Some t =>
      forall more,
        get_poi_temp rand no_interrupt (steps + more) self x y =
        Return (Some t) (set_CurrentPointArray (set_POI self (Some x) (Some y)) [])
  | None =>
      exists f, get_poi_temp rand no_interrupt steps self x y = Continue f
  end.
Proof.
  intros Hin Htemps Hempty. split; [reflexivity|].
  assert (Hrun : forall n,
             match Spec.trials (domain_of self) WALL_EPSILON (angle_of rand) x y
                               DICE_ROLLS_PER_DOT n 0 [] with
             | Some samples =>
                 get_poi_temp rand no_interrupt n self x y =
                 Return (Some (mean samples))
                        (set_CurrentPointArray (set_POI self (Some x) (Some y)) [])
             | None => exists f, get_poi_temp rand no_interrupt n self x y = Continue f
             end).
  { intros n. unfold get_poi_temp. rewrite Hin.
    pose proof (while_loop_trials rand x y DICE_ROLLS_PER_DOT n 0
                  (set_POI self (Some x) (Some y))) as H.
    cbn [set_POI CurrentPointArray borderTemps xPOI yPOI] in H.
    rewrite Hempty in H. cbn [length] in H.
    specialize (H eq_refl Htemps eq_refl eq_refl).
    change (domain_of (set_POI self (Some x) (Some y))) with (domain_of self) in H.
    exact H. }
  destruct (Spec.estimateTemperature (domain_of self) WALL_EPSILON (angle_of rand) x y
                                     DICE_ROLLS_PER_DOT steps) as [t|] eqn:Hest.
  - intros more.
    pose proof (estimateTemperature_more_steps _ _ _ _ _ _ _ _ Hest more) as Hmore.
    unfold Spec.estimateTemperature in Hmore.
    specialize (Hrun (steps + more)%nat).
    destruct (Spec.trials (domain_of self) WALL_EPSILON (angle_of rand) x y
                          DICE_ROLLS_PER_DOT (steps + more) 0 []) as [samples|];
      [|discriminate].
    cbn [option_map] in Hmore. inversion Hmore. subst t. exact Hrun.
  - specialize (Hrun steps). unfold Spec.estimateTemperature in Hest.
    destruct (Spec.trials (domain_of self) WALL_EPSILON (angle_of rand) x y
                          DICE_ROLLS_PER_DOT steps 0 []) as [samples|];
      [discriminate | exact Hrun].
Qed.

Lemma get_poi_temp_runs_trials_witness :
  poi_is_inside (set_POI plate (Some 5) (Some 5)) = Returned true /\
  length (borderTemps plate) = 4%nat /\
  CurrentPointArray plate = [] /\
  get_poi_temp (fun _ => 0) no_interrupt 2000 plate 5 5 =
  Return (Some 5) (set_CurrentPointArray (set_POI plate (Some 5) (Some 5)) []).
Proof.
  assert (Hin : poi_is_inside (set_POI plate (Some 5) (Some 5)) = Returned true).
  { rewrite poi_is_inside_set_POI. cbn [plate xDim yDim]. eval_Rleb. reflexivity. }
  repeat split; try exact Hin.
  pose proof (get_poi_temp_runs_trials (fun _ => 0) 2000 plate 5 5 Hin eq_refl eq_refl) as [_ H].
  rewrite plate_estimate_east in H. specialize (H 0%nat). exact H.
Defined.

(** ** The displacement step *)

Lemma step_radius_spec (d : Spec.Domain) (x y : R) :
  let r := Spec.step_radius d x y in
  r <= x /\ r <= Spec.width d - x /\ r <= y /\ r <= Spec.height d - y /\
  (r = x \/ r = Spec.width d - x \/ r = y \/ r = Spec.height d - y).
Proof.
  unfold Spec.step_radius. cbv zeta. case_Rmin; repeat split; try lra; tauto.
Qed.

Lemma step_radius_nonneg (d : Spec.Domain) (x y : R) :
  0 <= x <= Spec.width d -> 0 <= y <= Spec.height d -> 0 <= Spec.step_radius d x y.
Proof.
  intros Hx Hy. destruct (step_radius_spec d x y) as (_ & _ & _ & _ & H).
  cbv zeta in H. destruct H as [H | [H | [H | H]]]; rewrite H; lra.
Qed.

(** A point of the circle of radius [r] around (x, y), with [r] at most the
    distance to each wall, is in the closed rectangle. *)
Lemma circle_in_closed_rectangle (w h x y r t : R) :
  0 <= r -> r <= x -> r <= w - x -> r <= y -> r <= h - y ->
  (0 <= x + r * cos t <= w) /\ (0 <= y + r * sin t <= h).
Proof.
  intros H0 Hl Hr Hb Ht.
  pose proof (COS_bound t) as [Hc1 Hc2].
  pose proof (SIN_bound t) as [Hs1 Hs2].
  assert (- r <= r * cos t <= r) by nra.
  assert (- r <= r * sin t <= r) by nra.
  lra.
Qed.

Lemma displace_in_closed_rectangle (d : Spec.Domain) (x y t : R) :
  0 <= x <= Spec.width d -> 0 <= y <= Spec.height d ->
  (0 <= fst (Spec.displace d x y t) <= Spec.width d) /\
  (0 <= snd (Spec.displace d x y t) <= Spec.height d).
Proof.
  intros Hx Hy. unfold Spec.displace. cbn [fst snd].
  destruct (step_radius_spec d x y) as (Hl & Hr & Hb & Ht & _). cbv zeta in *.
  apply circle_in_closed_rectangle; try assumption.
  apply step_radius_nonneg; assumption.
Qed.

(** A circle around (x, y) that is larger than the step radius crosses a wall. *)
Lemma larger_circle_leaves (d : Spec.Domain) (x y r' : R) :
  Spec.step_radius d x y < r' ->
  exists t, ~ ((0 <= x + r' * cos t <= Spec.width d) /\ (0 <= y + r' * sin t <= Spec.height d)).
Proof.
  intros Hlt. destruct (step_radius_spec d x y) as (_ & _ & _ & _ & H). cbv zeta in H.
  destruct H as [H | [H | [H | H]]]; rewrite H in Hlt.
  - exists PI. rewrite cos_PI, sin_PI. lra.
  - exists 0. rewrite cos_0, sin_0. lra.
  - exists (3 * (PI / 2)). rewrite cos_3PI2, sin_3PI2. lra.
  - exists (PI / 2). rewrite cos_PI2, sin_PI2. lra.
Qed.

Lemma angle_in_range (u : R) : 0 <= u < 1 -> 0 <= u * 2 * PI < 2 * PI.
Proof.
  intros [H0 H1]. pose proof PI_RGT_0. split; nra.
Qed.

(** ** C3: one displacement step *)

(** C3.  One call of [get_circle_and_rnd_point] at (x, y), whose draw returns
    [u] in [0, 1), takes the radius r = min(x, width - x, y, height - y), an
    angle in [0, 2 pi) and returns (x + r cos angle, y + r sin angle).  For a
    position of the closed rectangle, r is the radius of the largest circle
    around (x, y) that stays in the rectangle: the circle of radius r stays in
    it and every larger one leaves it. *)
Theorem get_circle_and_rnd_point_step (self : TemperatureProblem) (x y u : R) :
  0 <= u < 1 ->
  let r := Rmin x (Rmin (xDim self - x) (Rmin y (yDim self - y))) in
  (exists angle, 0 <= angle < 2 * PI /\
                 get_circle_and_rnd_point self x y u = (x + r * cos angle, y + r * sin angle)) /\
  (0 <= x <= xDim self -> 0 <= y <= yDim self ->
   0 <= r /\
   (forall t, (0 <= x + r * cos t <= xDim self) /\ (0 <= y + r * sin t <= yDim self)) /\
   (forall r', r < r' ->
               exists t, ~ ((0 <= x + r' * cos t <= xDim self) /\
                            (0 <= y + r' * sin t <= yDim self)))).
Proof.
  intros Hu r. split.
  - exists (u * 2 * PI). split; [apply angle_in_range; exact Hu|].
    rewrite get_circle_and_rnd_point_displace. reflexivity.
  - intros Hx Hy.
    change r with (Spec.step_radius (domain_of self) x y).
    split; [apply step_radius_nonneg; assumption|]. split.
    + intros t. apply (displace_in_closed_rectangle (domain_of self) x y t); assumption.
    + intros r' Hr'. apply (larger_circle_leaves (domain_of self) x y r' Hr').
Qed.

Lemma get_circle_and_rnd_point_step_witness :
  0 <= 0 < 1 /\
  exists angle, 0 <= angle < 2 * PI /\
                get_circle_and_rnd_point plate 5 5 0 = (5 + 5 * cos angle, 5 + 5 * sin angle).
Proof.
  assert (Hu : 0 <= 0 < 1) by lra.
  split; [exact Hu|].
  destruct (get_circle_and_rnd_point_step plate 5 5 0 Hu) as [[angle [Ha He]] _].
  exists angle. split; [exact Ha|].
  rewrite He. cbn [plate xDim yDim].
  replace (Rmin 5 (Rmin (15 - 5) (Rmin 5 (10 - 5)))) with 5 by (eval_Rmin; lra).
  reflexivity.
Defined.

(** ** C4: where a step can land *)

Lemma point_is_next_to_wall_None (self : TemperatureProblem) (x y : R) :
  point_is_next_to_wall self x y = None <->
  WALL_EPSILON < x /\ WALL_EPSILON < y /\
  WALL_EPSILON < xDim self - x /\ WALL_EPSILON < yDim self - y.
Proof.
  unfold point_is_next_to_wall. split.
  - destruct (Rleb x WALL_EPSILON) eqn:H1; [discriminate|].
    destruct (Rleb y WALL_EPSILON) eqn:H2; [discriminate|].
    destruct (Rleb (xDim self - x) WALL_EPSILON) eqn:H3; [discriminate|].
    destruct (Rleb (yDim self - y) WALL_EPSILON) eqn:H4; [discriminate|].
    intros _. apply Rleb_false in H1, H2, H3, H4. tauto.
  - intros (H1 & H2 & H3 & H4).
    rewrite !Rleb_gt by assumption. reflexivity.
Qed.

Lemma plate_step_west :
  get_circle_and_rnd_point plate 5 5 (1 / 2) = (0, 5).
Proof.
  unfold get_circle_and_rnd_point, min4. cbn [plate xDim yDim].
  replace (1 / 2 * 2 * PI) with PI by lra.
  rewrite cos_PI, sin_PI.
  replace (Rmin (Rmin (Rmin (15 - 5) (10 - 5)) 5) 5) with 5 by (eval_Rmin; lra).
  f_equal; lra.
Qed.

(** On the 15 by 10 plate the step from (5, 5), which is 5 away from the
    nearest walls, with the draw 1/2 (the angle pi) lands on (0, 5), on the
    left wall: outside the open rectangle. *)
Lemma step_leaves_open_rectangle :
  (0 < 5 < xDim plate) /\ (0 < 5 < yDim plate) /\
  point_is_next_to_wall plate 5 5 = None /\
  (0 <= 1 / 2 < 1) /\
  ~ ((0 < fst (get_circle_and_rnd_point plate 5 5 (1 / 2)) < xDim plate) /\
     (0 < snd (get_circle_and_rnd_point plate 5 5 (1 / 2)) < yDim plate)).
Proof.
  cbn [plate xDim yDim]. repeat split; try lra.
  - apply point_is_next_to_wall_None. cbn [plate xDim yDim]. unfold WALL_EPSILON. lra.
  - rewrite plate_step_west. cbn [fst snd]. lra.
Qed.

(** C4, amended.  From a position strictly inside the rectangle and next to
    no wall, whatever the draw, one displacement step lands in the closed
    rectangle [0, width] x [0, height]. *)
Theorem get_circle_and_rnd_point_in_closed_rectangle
        (self : TemperatureProblem) (x y u : R) :
  0 < x < xDim self -> 0 < y < yDim self ->
  point_is_next_to_wall self x y = None ->
  (0 <= fst (get_circle_and_rnd_point self x y u) <= xDim self) /\
  (0 <= snd (get_circle_and_rnd_point self x y u) <= yDim self).
Proof.
  intros Hx Hy _. rewrite get_circle_and_rnd_point_displace.
  apply (displace_in_closed_rectangle (domain_of self)); cbn [domain_of Spec.width Spec.height]; lra.
Qed.

Lemma get_circle_and_rnd_point_in_closed_rectangle_witness :
  (0 < 5 < xDim plate) /\ (0 < 5 < yDim plate) /\
  point_is_next_to_wall plate 5 5 = None /\
  (0 <= fst (get_circle_and_rnd_point plate 5 5 (1 / 2)) <= xDim plate) /\
  (0 <= snd (get_circle_and_rnd_point plate 5 5 (1 / 2)) <= yDim plate).
Proof.
  assert (Hx : 0 < 5 < xDim plate) by (cbn [plate xDim]; lra).
  assert (Hy : 0 < 5 < yDim plate) by (cbn [plate yDim]; lra).
  assert (Hw : point_is_next_to_wall plate 5 5 = None).
  { apply point_is_next_to_wall_None. cbn [plate xDim yDim]. unfold WALL_EPSILON. lra. }
  split; [exact Hx|]. split; [exact Hy|]. split; [exact Hw|].
  exact (get_circle_and_rnd_point_in_closed_rectangle plate 5 5 (1 / 2) Hx Hy Hw).
Defined.

(** ** C5: the wall test *)

(** C5.  [point_is_next_to_wall] returns the identifier (0 bottom, 1 right,
    2 left, 3 top) of the first wall that matches in the order left
    (x <= eps), bottom (y <= eps), right (width - x <= eps), top
    (height - y <= eps), and [None] when none matches; a point within eps of
    two walls gets the earlier one. *)
Theorem point_is_next_to_wall_first_match (self : TemperatureProblem) (x y : R) :
  point_is_next_to_wall self x y =
  option_map Spec.wall_index (Spec.wallNear (domain_of self) WALL_EPSILON x y) /\
  (x <= WALL_EPSILON ->
   point_is_next_to_wall self x y = Some (Spec.wall_index Spec.Left)) /\
  (WALL_EPSILON < x -> y <= WALL_EPSILON ->
   point_is_next_to_wall self x y = Some (Spec.wall_index Spec.Bottom)) /\
  (WALL_EPSILON < x -> WALL_EPSILON < y -> xDim self - x <= WALL_EPSILON ->
   point_is_next_to_wall self x y = Some (Spec.wall_index Spec.Right)) /\
  (WALL_EPSILON < x -> WALL_EPSILON < y -> WALL_EPSILON < xDim self - x ->
   yDim self - y <= WALL_EPSILON ->
   point_is_next_to_wall self x y = Some (Spec.wall_index Spec.Top)) /\
  (WALL_EPSILON < x -> WALL_EPSILON < y -> WALL_EPSILON < xDim self - x ->
   WALL_EPSILON < yDim self - y ->
   point_is_next_to_wall self x y = None).
Proof.
  split; [apply point_is_next_to_wall_wallNear|].
  unfold point_is_next_to_wall.
  repeat split; intros;
    repeat match goal with
           | H : _ <= _ |- _ => apply Rleb_le in H; rewrite H; clear H
           | H : _ < _ |- _ => apply Rleb_gt in H; rewrite H; clear H
           end; reflexivity.
Qed.

(** The corner point (0.01, 0.01) of the plate is within eps of the left and
    of the bottom wall, and gets the left one. *)
Lemma point_is_next_to_wall_first_match_witness :
  1 / 100 <= WALL_EPSILON /\
  point_is_next_to_wall plate (1 / 100) (1 / 100) = Some 2%nat.
Proof.
  assert (H : 1 / 100 <= WALL_EPSILON) by (unfold WALL_EPSILON; lra).
  split; [exact H|].
  exact (proj1 (proj2 (point_is_next_to_wall_first_match plate (1 / 100) (1 / 100))) H).
Defined.

(** ** Query points left of the plate *)

Section LeftOfPlate.

Variable self : TemperatureProblem.
Variables x y : R.

Hypothesis width_pos : 0 < xDim self.
Hypothesis x_neg : x < 0.
Hypothesis y_in : 0 <= y <= yDim self.

Lemma left_accepted :
  poi_is_inside (set_POI self (Some x) (Some y)) = Returned true.
Proof.
  rewrite poi_is_inside_set_POI.
  rewrite (Rleb_gt 0 x) by lra.
  rewrite (Rleb_le 0 y), (Rleb_le y (yDim self)) by lra.
  reflexivity.
Qed.

Lemma left_radius : min4 (xDim self - x) (yDim self - y) x y = x.
Proof. unfold min4. case_Rmin; lra. Qed.

Lemma left_step (u : R) :
  get_circle_and_rnd_point self x y u =
  (x * (1 + cos (u * 2 * PI)), y + x * sin (u * 2 * PI)).
Proof.
  unfold get_circle_and_rnd_point. cbv zeta. rewrite left_radius.
  f_equal. lra.
Qed.

Lemma left_step_not_positive (u : R) : x * (1 + cos (u * 2 * PI)) <= 0.
Proof.
  pose proof (COS_bound (u * 2 * PI)) as [Hc _]. nra.
Qed.

Lemma left_step_wall (u : R) :
  point_is_next_to_wall self (fst (get_circle_and_rnd_point self x y u))
                             (snd (get_circle_and_rnd_point self x y u)) = Some 2%nat.
Proof.
  rewrite left_step. cbn [fst snd]. unfold point_is_next_to_wall.
  rewrite Rleb_le; [reflexivity|].
  pose proof (left_step_not_positive u). pose proof WALL_EPSILON_pos. lra.
Qed.

Variable rand : nat -> R.
Hypothesis four_temps : length (borderTemps self) = 4%nat.

(** With [n] samples missing and the walk at the point of interest, [n]
    steps fill the array with the left wall's temperature. *)
Lemma left_while_loop (n fuel k : nat) (samples : list R) :
  (length samples + n = DICE_ROLLS_PER_DOT)%nat ->
  (n <= fuel)%nat ->
  while_loop rand no_interrupt fuel k
    (mkFrame (set_CurrentPointArray (set_POI self (Some x) (Some y)) samples)
             (Some x) (Some y)) =
  Return (Some (mean (samples ++ repeat (nth 2 (borderTemps self) 0) n)))
         (set_CurrentPointArray (set_POI self (Some x) (Some y)) []).
Proof.
  revert fuel k samples. induction n as [|n IH]; intros fuel k samples Hlen Hfuel.
  - rewrite while_loop_done by (cbn [obj set_CurrentPointArray CurrentPointArray]; lia).
    cbn [repeat]. rewrite app_nil_r. reflexivity.
  - destruct fuel as [|fuel]; [lia|].
    rewrite while_loop_step by (cbn [obj set_CurrentPointArray CurrentPointArray]; lia).
    unfold no_interrupt at 1. cbv beta.
    pose proof (left_step_wall (rand k)) as Hw.
    destruct (get_circle_and_rnd_point self x y (rand k)) as [nx ny] eqn:Hp.
    cbn [fst snd] in Hw.
    rewrite (try_body_hit (rand k) x y nx ny _ 2%nat).
    + cbn [set_CurrentPointArray set_POI CurrentPointArray borderTemps xPOI yPOI
             xDim yDim CalculatedPOIArray].
      specialize (IH fuel (S k) (samples ++ [nth 2 (borderTemps self) 0])).
      rewrite length_app in IH. cbn [length] in IH.
      rewrite <- app_assoc in IH. cbn [app] in IH.
      change (nth 2 (borderTemps self) 0 :: repeat (nth 2 (borderTemps self) 0) n)
        with (repeat (nth 2 (borderTemps self) 0) (S n)) in IH.
      apply IH; lia.
    + exact Hp.
    + exact Hw.
    + cbn [set_CurrentPointArray set_POI borderTemps]. rewrite four_temps. lia.
Qed.

Hypothesis no_samples : CurrentPointArray self = [].

Lemma left_get_poi_temp (fuel : nat) :
  (DICE_ROLLS_PER_DOT <= fuel)%nat ->
  get_poi_temp rand no_interrupt fuel self x y =
  Return (Some (nth 2 (borderTemps self) 0))
         (set_CurrentPointArray (set_POI self (Some x) (Some y)) []).
Proof.
  intros Hfuel. unfold get_poi_temp. rewrite left_accepted.
  pose proof (left_while_loop DICE_ROLLS_PER_DOT fuel 0 [] eq_refl Hfuel) as H.
  cbn [app] in H. rewrite mean_repeat in H by discriminate.
  rewrite <- H. f_equal. f_equal.
  unfold set_CurrentPointArray, set_POI. cbn. rewrite no_samples. reflexivity.
Qed.

End LeftOfPlate.

(** ** C10: what the code does left of the plate *)

(** C10.  On an object of positive width with four wall temperatures and no
    sample, for a query point with x < 0 and 0 <= y <= height:
    [poi_is_inside] accepts the point; the step radius is x; every step from
    the point lands on the abscissa x (1 + cos angle) <= 0 <= eps, where the
    wall test answers 2, the left wall; and with 1000 walk steps or more
    [get_poi_temp] returns [borderTemps[2]], whatever the draws. *)
Theorem get_poi_temp_left_of_plate (rand : nat -> R) (fuel : nat)
        (self : TemperatureProblem) (x y : R) :
  0 < xDim self ->
  length (borderTemps self) = 4%nat ->
  CurrentPointArray self = [] ->
  x < 0 ->
  0 <= y <= yDim self ->
  (DICE_ROLLS_PER_DOT <= fuel)%nat ->
  poi_is_inside (set_POI self (Some x) (Some y)) = Returned true /\
  min4 (xDim self - x) (yDim self - y) x y = x /\
  (forall u,
      fst (get_circle_and_rnd_point self x y u) = x * (1 + cos (u * 2 * PI)) /\
      x * (1 + cos (u * 2 * PI)) <= 0 /\ 0 <= WALL_EPSILON /\
      point_is_next_to_wall self (fst (get_circle_and_rnd_point self x y u))
                                 (snd (get_circle_and_rnd_point self x y u)) = Some 2%nat) /\
  get_poi_temp rand no_interrupt fuel self x y =
  Return (Some (nth 2 (borderTemps self) 0))
         (set_CurrentPointArray (set_POI self (Some x) (Some y)) []).
Proof.
  intros Hw Ht He Hx Hy Hfuel.
  split; [apply left_accepted; assumption|].
  split; [apply left_radius; assumption|].
  split.
  - intros u. split; [rewrite left_step by assumption; reflexivity|].
    split; [apply left_step_not_positive; assumption|].
    split; [pose proof WALL_EPSILON_pos; lra|].
    apply left_step_wall; assumption.
  - apply left_get_poi_temp; assumption.
Qed.

Lemma get_poi_temp_left_of_plate_witness :
  0 < xDim plate /\ length (borderTemps plate) = 4%nat /\ CurrentPointArray plate = [] /\
  -3 < 0 /\ 0 <= 2 <= yDim plate /\ (DICE_ROLLS_PER_DOT <= 1000)%nat /\
  get_poi_temp (fun k => / (INR k + 2)) no_interrupt 1000 plate (-3) 2 =
  Return (Some 5) (set_CurrentPointArray (set_POI plate (Some (-3)) (Some 2)) []).
Proof.
  assert (H1 : 0 < xDim plate) by (cbn [plate xDim]; lra).
  assert (H2 : -3 < 0) by lra.
  assert (H3 : 0 <= 2 <= yDim plate) by (cbn [plate yDim]; lra).
  assert (H4 : (DICE_ROLLS_PER_DOT <= 1000)%nat) by (rewrite DICE_ROLLS_PER_DOT_value; lia).
  repeat split; try assumption; try lra.
  exact (proj2 (proj2 (proj2
           (get_poi_temp_left_of_plate (fun k => / (INR k + 2)) 1000 plate (-3) 2
                                       H1 eq_refl eq_refl H2 H3 H4)))).
Defined.

(** ** C2: the validation of the query point *)

(** When neither coordinate is in range the call raises before the loop,
    whatever the fuel: no step is made. *)
Lemma get_poi_temp_rejects (rand : nat -> R) (interrupt : nat -> bool) (fuel : nat)
      (self : TemperatureProblem) (x y : R) :
  ~ (0 <= x <= xDim self) -> ~ (0 <= y <= yDim self) ->
  get_poi_temp rand interrupt fuel self x y =
  Raise (Exception "POI must be inside initial rectangle!") (set_POI self (Some x) (Some y)).
Proof.
  intros Hx Hy. unfold get_poi_temp. cbv zeta. rewrite poi_is_inside_set_POI.
  assert (E1 : Rleb 0 x && Rleb x (xDim self) = false).
  { apply andb_false_iff.
    destruct (Rle_dec 0 x); [right | left]; apply Rleb_gt; lra. }
  assert (E2 : Rleb 0 y && Rleb y (yDim self) = false).
  { apply andb_false_iff.
    destruct (Rle_dec 0 y); [right | left]; apply Rleb_gt; lra. }
  rewrite E1, E2. reflexivity.
Qed.

(** When one coordinate is in range the point is accepted, wherever the other
    one is. *)
Lemma poi_is_inside_one_coordinate (self : TemperatureProblem) (x y : R) :
  (0 <= x <= xDim self) \/ (0 <= y <= yDim self) ->
  poi_is_inside (set_POI self (Some x) (Some y)) = Returned true.
Proof.
  intros H. rewrite poi_is_inside_set_POI. f_equal. apply orb_true_iff.
  destruct H as [[H1 H2] | [H1 H2]]; [left | right];
    apply andb_true_iff; split; apply Rleb_le; assumption.
Qed.

(** C2 at the query point (-1, 5) of the 15 by 10 plate with temperatures
    [10, 5, 5, 20]: x = -1 is out of range, the call does not raise, and with
    1000 steps it returns 5, the temperature of the left wall, whatever the
    draws. *)
Theorem get_poi_temp_accepts_point_outside (rand : nat -> R) :
  -1 < 0 /\
  poi_is_inside (set_POI plate (Some (-1)) (Some 5)) = Returned true /\
  get_poi_temp rand no_interrupt 1000 plate (-1) 5 =
  Return (Some 5) (set_CurrentPointArray (set_POI plate (Some (-1)) (Some 5)) []).
Proof.
  assert (H1 : 0 < xDim plate) by (cbn [plate xDim]; lra).
  assert (H2 : -1 < 0) by lra.
  assert (H3 : 0 <= 5 <= yDim plate) by (cbn [plate yDim]; lra).
  split; [lra|]. split.
  - apply left_accepted; assumption.
  - apply (left_get_poi_temp plate (-1) 5 H1 H2 H3 rand eq_refl eq_refl).
    rewrite DICE_ROLLS_PER_DOT_value. lia.
Qed.

(** ** A walk that reaches no wall *)

Section Roaming.

Variable rand : nat -> R.
Variable interrupt : nat -> bool.

(** While the steps land next to no wall and no interrupt arrives, the loop
    keeps walking: after [n] steps it is at [walk n], no sample added. *)
Lemma while_loop_roams (n k : nat) (self : TemperatureProblem) (p : R * R) :
  (length (CurrentPointArray self) < DICE_ROLLS_PER_DOT)%nat ->
  (forall j, (j < n)%nat -> interrupt (k + j) = false) ->
  roams rand self n k p = true ->
  while_loop rand interrupt n k (mkFrame self (Some (fst p)) (Some (snd p))) =
  Continue (mkFrame self (Some (fst (walk rand self n k p)))
                         (Some (snd (walk rand self n k p)))).
Proof.
  intros Hlen. revert k p. induction n as [|n IH]; intros k p Hint Hroam.
  - cbn [walk]. apply while_loop_pause. exact Hlen.
  - rewrite while_loop_step by exact Hlen.
    replace (interrupt k) with false
      by (symmetry; rewrite <- (Nat.add_0_r k); apply Hint; lia).
    cbn [roams walk] in *.
    destruct (get_circle_and_rnd_point self (fst p) (snd p) (rand k)) as [nx ny] eqn:Hp.
    cbn [fst snd] in Hroam.
    destruct (point_is_next_to_wall self nx ny) eqn:Hw; [discriminate|].
    rewrite (try_body_move _ _ _ _ _ _ Hp Hw).
    apply (IH (S k) (nx, ny)); [|exact Hroam].
    intros j Hj. replace (S k + j)%nat with (k + S j)%nat by lia. apply Hint. lia.
Qed.

End Roaming.

(** The walk reads the object's dimensions only. *)
Lemma roams_set_POI (rand : nat -> R) (self : TemperatureProblem) (a b : option R)
      (n k : nat) (p : R * R) :
  roams rand (set_POI self a b) n k p = roams rand self n k p.
Proof.
  revert k p. induction n as [|n IH]; intros k p; [reflexivity|].
  cbn [roams]. cbv zeta.
  change (get_circle_and_rnd_point (set_POI self a b)) with (get_circle_and_rnd_point self).
  change (point_is_next_to_wall (set_POI self a b)) with (point_is_next_to_wall self).
  destruct (point_is_next_to_wall self _ _); [reflexivity | apply IH].
Qed.

Lemma walk_set_POI (rand : nat -> R) (self : TemperatureProblem) (a b : option R)
      (n k : nat) (p : R * R) :
  walk rand (set_POI self a b) n k p = walk rand self n k p.
Proof.
  revert k p. induction n as [|n IH]; intros k p; [reflexivity|].
  cbn [walk].
  change (get_circle_and_rnd_point (set_POI self a b)) with (get_circle_and_rnd_point self).
  apply IH.
Qed.

Lemma plate_step_back :
  get_circle_and_rnd_point plate 10 5 (1 / 2) = (5, 5).
Proof.
  unfold get_circle_and_rnd_point, min4. cbn [plate xDim yDim].
  replace (1 / 2 * 2 * PI) with PI by lra.
  rewrite cos_PI, sin_PI.
  replace (Rmin (Rmin (Rmin (15 - 10) (10 - 5)) 10) 5) with 5 by (eval_Rmin; lra).
  f_equal; lra.
Qed.

Lemma plate_step_east :
  get_circle_and_rnd_point plate 5 5 0 = (10, 5).
Proof.
  unfold get_circle_and_rnd_point, min4. cbn [plate xDim yDim].
  replace (0 * 2 * PI) with 0 by lra.
  rewrite cos_0, sin_0.
  replace (Rmin (Rmin (Rmin (15 - 5) (10 - 5)) 5) 5) with 5 by (eval_Rmin; lra).
  f_equal; lra.
Qed.

Lemma plate_inner_points :
  point_is_next_to_wall plate 5 5 = None /\ point_is_next_to_wall plate 10 5 = None.
Proof.
  split; apply point_is_next_to_wall_None; cbn [plate xDim yDim];
    unfold WALL_EPSILON; lra.
Qed.

(** With the draws of [bounce] the walk on the plate goes from (5, 5) to
    (10, 5) and back, for ever. *)
Lemma bounce_roams (n k : nat) (p : R * R) :
  (Nat.even k = true /\ p = (5, 5)) \/ (Nat.even k = false /\ p = (10, 5)) ->
  roams bounce plate n k p = true.
Proof.
  revert k p. induction n as [|n IH]; intros k p H; [reflexivity|].
  cbn [roams]. cbv zeta.
  destruct H as [[Hk Hp] | [Hk Hp]]; rewrite Hp; cbn [fst snd].
  - replace (bounce k) with 0 by (unfold bounce; rewrite Hk; reflexivity).
    rewrite plate_step_east. cbn [fst snd].
    rewrite (proj2 plate_inner_points). apply IH. right.
    split; [rewrite Nat.even_succ, <- Nat.negb_even, Hk|]; reflexivity.
  - replace (bounce k) with (1 / 2) by (unfold bounce; rewrite Hk; reflexivity).
    rewrite plate_step_back. cbn [fst snd].
    rewrite (proj1 plate_inner_points). apply IH. left.
    split; [rewrite Nat.even_succ, <- Nat.negb_even, Hk|]; reflexivity.
Qed.

Lemma plate_accepts_centre :
  poi_is_inside (set_POI plate (Some 5) (Some 5)) = Returned true.
Proof.
  apply poi_is_inside_one_coordinate. left. cbn [plate xDim]. lra.
Qed.

(** ** C8: no bound on the steps of a trial *)

(** The first trial of [get_poi_temp(5, 5)] on the plate, with the draws of
    [bounce], is still walking after any number of steps: the call has
    neither returned nor raised, and holds no sample. *)
Lemma trial_without_ceiling :
  poi_is_inside (set_POI plate (Some 5) (Some 5)) = Returned true /\
  forall n : nat,
    exists px py,
      get_poi_temp bounce no_interrupt n plate 5 5 =
      Continue (mkFrame (set_POI plate (Some 5) (Some 5)) (Some px) (Some py)).
Proof.
  split; [exact plate_accepts_centre|].
  intros n. unfold get_poi_temp. cbv zeta. rewrite plate_accepts_centre.
  eexists. eexists.
  apply (while_loop_roams bounce no_interrupt n 0 (set_POI plate (Some 5) (Some 5)) (5, 5)).
  - cbn [set_POI CurrentPointArray plate length]. rewrite DICE_ROLLS_PER_DOT_value. lia.
  - intros. reflexivity.
  - rewrite roams_set_POI. apply bounce_roams. left. split; reflexivity.
Qed.

(** C8, amended.  The loop of [get_poi_temp] bounds no trial: for every number
    [n] of steps, when the first [n] steps from an accepted query point land
    next to no wall, the call is still walking after them, at the position
    these steps lead to, with the samples it started with; it has not failed. *)
Theorem get_poi_temp_keeps_walking (rand : nat -> R) (n : nat)
        (self : TemperatureProblem) (x y : R) :
  poi_is_inside (set_POI self (Some x) (Some y)) = Returned true ->
  (length (CurrentPointArray self) < DICE_ROLLS_PER_DOT)%nat ->
  roams rand self n 0 (x, y) = true ->
  get_poi_temp rand no_interrupt n self x y =
  Continue (mkFrame (set_POI self (Some x) (Some y))
                    (Some (fst (walk rand self n 0 (x, y))))
                    (Some (snd (walk rand self n 0 (x, y))))).
Proof.
  intros Hin Hlen Hroam. unfold get_poi_temp. cbv zeta. rewrite Hin.
  rewrite <- (walk_set_POI rand self (Some x) (Some y)).
  apply (while_loop_roams rand no_interrupt n 0 (set_POI self (Some x) (Some y)) (x, y)).
  - exact Hlen.
  - intros. reflexivity.
  - rewrite roams_set_POI. exact Hroam.
Qed.

Lemma get_poi_temp_keeps_walking_witness :
  poi_is_inside (set_POI plate (Some 5) (Some 5)) = Returned true /\
  (length (CurrentPointArray plate) < DICE_ROLLS_PER_DOT)%nat /\
  roams bounce plate 5000 0 (5, 5) = true /\
  exists px py,
    get_poi_temp bounce no_interrupt 5000 plate 5 5 =
    Continue (mkFrame (set_POI plate (Some 5) (Some 5)) (Some px) (Some py)).
Proof.
  assert (H1 : (length (CurrentPointArray plate) < DICE_ROLLS_PER_DOT)%nat).
  { cbn [plate CurrentPointArray length]. rewrite DICE_ROLLS_PER_DOT_value. lia. }
  assert (H2 : roams bounce plate 5000 0 (5, 5) = true).
  { apply bounce_roams. left. split; reflexivity. }
  split; [exact plate_accepts_centre|]. split; [exact H1|]. split; [exact H2|].
  eexists. eexists.
  exact (get_poi_temp_keeps_walking bounce 5000 plate 5 5 plate_accepts_centre H1 H2).
Defined.

(** ** C9: construction *)

(** A width of -1, a height of 0 and a single temperature are accepted. *)
Lemma init_accepts_invalid_domain :
  exists self,
    __init__ (-1) 0 [1] = Returned self /\
    xDim self = -1 /\ yDim self = 0 /\ borderTemps self = [1] /\
    ~ Spec.valid (domain_of self).
Proof.
  eexists. split; [reflexivity|]. cbn. repeat split; try reflexivity.
  unfold Spec.valid. cbn. lra.
Qed.

(** C9, amended.  Construction checks nothing and never fails: whatever the
    width, the height and the sequence of temperatures, [__init__] returns an
    object that holds them as given, with no point of interest and no
    sample. *)
Theorem init_stores_arguments (xdim ydim : R) (temp : list R) :
  exists self,
    __init__ xdim ydim temp = Returned self /\
    domain_of self = Spec.mkDomain xdim ydim temp /\
    xPOI self = None /\ yPOI self = None /\
    CalculatedPOIArray self = None /\ CurrentPointArray self = [].
Proof.
  eexists. split; [reflexivity|]. repeat split.
Qed.

(** ** What a call leaves behind *)

Lemma same_config_refl (s : TemperatureProblem) : same_config s s.
Proof. repeat split. Qed.

Lemma same_config_trans (s1 s2 s3 : TemperatureProblem) :
  same_config s1 s2 -> same_config s2 s3 -> same_config s1 s3.
Proof.
  unfold same_config. intros (A1 & A2 & A3 & A4) (B1 & B2 & B3 & B4).
  repeat split; congruence.
Qed.

Lemma same_config_domain (s1 s2 : TemperatureProblem) :
  same_config s1 s2 -> domain_of s1 = domain_of s2.
Proof.
  unfold same_config, domain_of. intros (A1 & A2 & A3 & _). congruence.
Qed.

Lemma same_config_set_POI (s1 s2 : TemperatureProblem) (a b : option R) :
  same_config s1 s2 -> CurrentPointArray s1 = CurrentPointArray s2 ->
  set_POI s1 a b = set_POI s2 a b.
Proof.
  unfold same_config, set_POI. intros (A1 & A2 & A3 & A4) A5. congruence.
Qed.

Lemma try_body_same_config (u : R) (f : frame) :
  same_config (status_obj (try_body u f)) (obj f).
Proof.
  unfold try_body.
  destruct (curr_x f) as [cx|]; [|apply same_config_refl].
  destruct (curr_y f) as [cy|]; [|apply same_config_refl].
  destruct (get_circle_and_rnd_point (obj f) cx cy u) as [nx ny].
  destruct (point_is_next_to_wall (obj f) nx ny) as [w|]; [|apply same_config_refl].
  destruct (nth_error (borderTemps (obj f)) w); repeat split.
Qed.

Section Aftermath.

Variable rand : nat -> R.
Variable interrupt : nat -> bool.

Lemma while_loop_same_config (fuel k : nat) (f : frame) :
  same_config (status_obj (while_loop rand interrupt fuel k f)) (obj f).
Proof.
  revert k f. induction fuel as [|fuel IH]; intros k f; cbn [while_loop];
    destruct (length (CurrentPointArray (obj f)) <? DICE_ROLLS_PER_DOT)%nat;
    try (repeat split; fail).
  destruct (interrupt k); [repeat split|].
  pose proof (try_body_same_config (rand k) f) as Hb.
  destruct (try_body (rand k) f) as [f'| |]; try exact Hb.
  eapply same_config_trans; [apply IH | exact Hb].
Qed.

Lemma while_loop_Return_empty (fuel k : nat) (f : frame) (v : option R)
      (s : TemperatureProblem) :
  while_loop rand interrupt fuel k f = Return v s -> CurrentPointArray s = [].
Proof.
  revert k f. induction fuel as [|fuel IH]; intros k f; cbn [while_loop];
    destruct (length (CurrentPointArray (obj f)) <? DICE_ROLLS_PER_DOT)%nat;
    try discriminate;
    try (unfold after_loop; intros H; inversion H; reflexivity).
  destruct (interrupt k).
  - unfold on_KeyboardInterrupt. intros H. inversion H. reflexivity.
  - destruct (try_body (rand k) f) as [f'| |] eqn:Hb; try discriminate.
    + apply IH.
    + unfold try_body in Hb.
      destruct (curr_x f); [|discriminate]. destruct (curr_y f); [|discriminate].
      destruct (get_circle_and_rnd_point _ _ _ _).
      destruct (point_is_next_to_wall _ _ _); [|discriminate].
      destruct (nth_error _ _); discriminate.
Qed.

(** A loop that is still running after [a] steps goes on from where it is. *)
Lemma while_loop_resume (a k : nat) (f f' : frame) :
  while_loop rand interrupt a k f = Continue f' ->
  (length (CurrentPointArray (obj f')) < DICE_ROLLS_PER_DOT)%nat /\
  forall b, while_loop rand interrupt (a + b) k f = while_loop rand interrupt b (k + a) f'.
Proof.
  revert k f. induction a as [|a IH]; intros k f.
  - cbn [while_loop].
    destruct (length (CurrentPointArray (obj f)) <? DICE_ROLLS_PER_DOT)%nat eqn:Hlt;
      [|discriminate].
    intros H. inversion H. subst f'. split; [apply Nat.ltb_lt; exact Hlt|].
    intros b. rewrite Nat.add_0_r. reflexivity.
  - cbn [while_loop Nat.add].
    destruct (length (CurrentPointArray (obj f)) <? DICE_ROLLS_PER_DOT)%nat eqn:Hlt;
      [|discriminate].
    destruct (interrupt k); [discriminate|].
    destruct (try_body (rand k) f) as [f1| |]; try discriminate.
    intros H. destruct (IH (S k) f1 H) as [Hlen Hb]. split; [exact Hlen|].
    intros b. rewrite Hb. f_equal. lia.
Qed.

(** An interrupt during iteration [k] of a loop that is still running. *)
Lemma while_loop_interrupted (k fuel : nat) (f f' : frame) :
  while_loop rand interrupt k 0 f = Continue f' ->
  interrupt k = true ->
  (k < fuel)%nat ->
  while_loop rand interrupt fuel 0 f = on_KeyboardInterrupt f'.
Proof.
  intros Hrun Hint Hfuel.
  destruct (while_loop_resume k 0 f f' Hrun) as [Hlen Hb].
  replace fuel with (k + S (fuel - S k))%nat by lia.
  rewrite Hb, while_loop_step by exact Hlen.
  cbn [Nat.add]. rewrite Hint. reflexivity.
Qed.

End Aftermath.

(** The loop reads [interrupt] at the iterations it runs only. *)
Lemma while_loop_interrupt_ext (rand : nat -> R) (i1 i2 : nat -> bool)
      (fuel k : nat) (f : frame) :
  (forall j, (k <= j < k + fuel)%nat -> i1 j = i2 j) ->
  while_loop rand i1 fuel k f = while_loop rand i2 fuel k f.
Proof.
  revert k f. induction fuel as [|fuel IH]; intros k f H; [reflexivity|].
  cbn [while_loop]. rewrite (H k) by lia.
  destruct (length (CurrentPointArray (obj f)) <? DICE_ROLLS_PER_DOT)%nat; [|reflexivity].
  destruct (i2 k); [reflexivity|].
  destruct (try_body (rand k) f); try reflexivity.
  apply IH. intros j Hj. apply H. lia.
Qed.

(** On the plate, from (5, 5), with every draw returning 0: the first two
    steps end the first trial with the right wall's temperature. *)
Lemma plate_first_trial_east (interrupt : nat -> bool) :
  interrupt 0%nat = false -> interrupt 1%nat = false ->
  get_poi_temp (fun _ => 0) interrupt 2 plate 5 5 =
  Continue (mkFrame (set_CurrentPointArray (set_POI plate (Some 5) (Some 5)) [5])
                    (Some 5) (Some 5)).
Proof.
  intros H0 H1. unfold get_poi_temp. cbv zeta. rewrite plate_accepts_centre.
  rewrite (while_loop_interrupt_ext _ interrupt no_interrupt).
  - assert (Hlen : (length (CurrentPointArray (set_POI plate (Some 5%R) (Some 5%R))) <
                    DICE_ROLLS_PER_DOT)%nat)
      by (cbn [set_POI CurrentPointArray plate length]; rewrite DICE_ROLLS_PER_DOT_value; lia).
    pose proof (while_loop_trial (fun _ => 0) 5 5 2 0 5 5 (set_POI plate (Some 5) (Some 5))
                                 Hlen eq_refl eq_refl eq_refl) as H.
    change (domain_of (set_POI plate (Some 5) (Some 5))) with (domain_of plate) in H.
    rewrite plate_trial_east in H. rewrite H.
    apply while_loop_pause.
    cbn [obj set_CurrentPointArray set_POI CurrentPointArray plate app length].
    rewrite DICE_ROLLS_PER_DOT_value. lia.
  - intros j Hj. assert (j = 0 \/ j = 1)%nat as [-> | ->] by lia; assumption.
Qed.

Lemma plate_get_poi_temp_east :
  get_poi_temp (fun _ => 0) no_interrupt 2000 plate 5 5 =
  Return (Some 5) (set_CurrentPointArray (set_POI plate (Some 5) (Some 5)) []).
Proof.
  unfold get_poi_temp. cbv zeta. rewrite plate_accepts_centre.
  pose proof (while_loop_trials (fun _ => 0) 5 5 DICE_ROLLS_PER_DOT 2000 0
                (set_POI plate (Some 5) (Some 5)) eq_refl eq_refl eq_refl eq_refl) as H.
  change (domain_of (set_POI plate (Some 5) (Some 5))) with (domain_of plate) in H.
  change 2000%nat with (2 * DICE_ROLLS_PER_DOT + 0)%nat in H.
  rewrite plate_trials_east in H.
  cbn [set_POI CurrentPointArray plate app] in H.
  rewrite mean_repeat in H by discriminate. exact H.
Qed.

(** ** C6: cancellation *)

(** C6.  When a [KeyboardInterrupt] arrives during iteration [k] of a call
    that is still collecting samples, the call returns [None]: no number,
    neither a mean of the samples collected so far nor zero.  The object it
    leaves has an empty [CurrentPointArray], no point of interest and the
    Domain fields it had. *)
Theorem get_poi_temp_cancelled (rand : nat -> R) (interrupt : nat -> bool)
        (k fuel : nat) (self : TemperatureProblem) (x y : R) (f : frame) :
  get_poi_temp rand interrupt k self x y = Continue f ->
  interrupt k = true ->
  (k < fuel)%nat ->
  exists self',
    get_poi_temp rand interrupt fuel self x y = Return None self' /\
    CurrentPointArray self' = [] /\
    xPOI self' = None /\ yPOI self' = None /\
    domain_of self' = domain_of self /\
    (forall t s, get_poi_temp rand interrupt fuel self x y <> Return (Some t) s).
Proof.
  unfold get_poi_temp. cbv zeta.
  destruct (poi_is_inside (set_POI self (Some x) (Some y))) as [[|]|e]; try discriminate.
  intros Hrun Hint Hfuel.
  rewrite (while_loop_interrupted rand interrupt k fuel _ f Hrun Hint Hfuel).
  eexists. split; [reflexivity|]. cbn [set_POI set_CurrentPointArray CurrentPointArray xPOI yPOI].
  repeat split.
  - pose proof (while_loop_same_config rand interrupt k 0
                  (mkFrame (set_POI self (Some x) (Some y)) (Some x) (Some y))) as H.
    rewrite Hrun in H. cbn [status_obj obj] in H.
    apply same_config_domain in H. exact H.
  - intros t s. unfold on_KeyboardInterrupt. discriminate.
Qed.

(** The third iteration of [get_poi_temp(5, 5)] on the plate is interrupted,
    after the first trial has left one sample. *)
Lemma get_poi_temp_cancelled_witness :
  get_poi_temp (fun _ => 0) (interrupt_at 2) 2 plate 5 5 =
  Continue (mkFrame (set_CurrentPointArray (set_POI plate (Some 5) (Some 5)) [5])
                    (Some 5) (Some 5)) /\
  interrupt_at 2 2 = true /\ (2 < 3)%nat /\
  exists self',
    get_poi_temp (fun _ => 0) (interrupt_at 2) 3 plate 5 5 = Return None self' /\
    CurrentPointArray self' = [].
Proof.
  assert (H1 : get_poi_temp (fun _ => 0) (interrupt_at 2) 2 plate 5 5 =
               Continue (mkFrame (set_CurrentPointArray (set_POI plate (Some 5) (Some 5)) [5])
                                 (Some 5) (Some 5)))
    by (apply plate_first_trial_east; reflexivity).
  assert (H2 : (2 < 3)%nat) by lia.
  split; [exact H1|]. split; [reflexivity|]. split; [exact H2|].
  destruct (get_poi_temp_cancelled (fun _ => 0) (interrupt_at 2) 2 3 plate 5 5 _ H1 eq_refl H2)
    as [self' [Hr [He _]]].
  exists self'. split; [exact Hr | exact He].
Defined.

(** ** C7: what a call changes *)

(** C7.  [get_poi_temp] never changes the Domain fields, however it ends.
    After a call that returns, with a mean or with [None], the object holds no
    sample, and a following call on it does what it would do on the original
    object with an empty sample array: nothing of the first call is left. *)
Theorem get_poi_temp_leaves_no_trace (rand : nat -> R) (interrupt : nat -> bool)
        (fuel : nat) (self : TemperatureProblem) (x y : R) :
  domain_of (status_obj (get_poi_temp rand interrupt fuel self x y)) = domain_of self /\
  forall v self',
    get_poi_temp rand interrupt fuel self x y = Return v self' ->
    domain_of self' = domain_of self /\
    CurrentPointArray self' = [] /\
    forall rand' interrupt' fuel' x' y',
      get_poi_temp rand' interrupt' fuel' self' x' y' =
      get_poi_temp rand' interrupt' fuel' (set_CurrentPointArray self []) x' y'.
Proof.
  assert (Hc : same_config (status_obj (get_poi_temp rand interrupt fuel self x y)) self).
  { unfold get_poi_temp. cbv zeta.
    destruct (poi_is_inside (set_POI self (Some x) (Some y))) as [[|]|e];
      try (repeat split; fail).
    eapply same_config_trans; [apply while_loop_same_config|]. repeat split. }
  split; [apply same_config_domain; exact Hc|].
  intros v self' Hret. rewrite Hret in Hc. cbn [status_obj] in Hc.
  assert (He : CurrentPointArray self' = []).
  { revert Hret. unfold get_poi_temp. cbv zeta.
    destruct (poi_is_inside (set_POI self (Some x) (Some y))) as [[|]|e]; try discriminate.
    apply while_loop_Return_empty. }
  split; [apply same_config_domain; exact Hc|]. split; [exact He|].
  intros rand' interrupt' fuel' x' y'. unfold get_poi_temp. cbv zeta.
  rewrite (same_config_set_POI self' (set_CurrentPointArray self []) (Some x') (Some y'));
    [reflexivity | | exact He].
  eapply same_config_trans; [exact Hc|]. repeat split.
Qed.

Lemma get_poi_temp_leaves_no_trace_witness :
  get_poi_temp (fun _ => 0) no_interrupt 2000 plate 5 5 =
  Return (Some 5) (set_CurrentPointArray (set_POI plate (Some 5) (Some 5)) []) /\
  domain_of (set_CurrentPointArray (set_POI plate (Some 5) (Some 5)) []) = domain_of plate /\
  CurrentPointArray (set_CurrentPointArray (set_POI plate (Some 5) (Some 5)) []) = [].
Proof.
  split; [exact plate_get_poi_temp_east|].
  destruct (proj2 (get_poi_temp_leaves_no_trace (fun _ => 0) no_interrupt 2000 plate 5 5)
                  _ _ plate_get_poi_temp_east) as [Hd [He _]].
  split; [exact Hd | exact He].
Defined.

(** * Further properties of the code *)

(** ** Means of bounded samples *)

Lemma sum_bounds (l : list R) (lo hi : R) :
  Forall (fun t => lo <= t <= hi) l ->
  INR (length l) * lo <= fold_right Rplus 0 l <= INR (length l) * hi.
Proof.
  induction 1 as [|t l Ht _ IH].
  - cbn. lra.
  - cbn [length fold_right]. rewrite S_INR. lra.
Qed.

Lemma mean_bounds (l : list R) (lo hi : R) :
  (0 < length l)%nat ->
  Forall (fun t => lo <= t <= hi) l ->
  lo <= mean l <= hi.
Proof.
  intros Hlen Hall. pose proof (sum_bounds l lo hi Hall) as [Hlo Hhi].
  assert (Hn : 0 < INR (length l)) by (apply lt_0_INR; exact Hlen).
  unfold mean. split.
  - apply Rmult_le_reg_r with (INR (length l)); [exact Hn|].
    unfold Rdiv. rewrite Rmult_assoc, Rinv_l by lra. lra.
  - apply Rmult_le_reg_r with (INR (length l)); [exact Hn|].
    unfold Rdiv. rewrite Rmult_assoc, Rinv_l by lra. lra.
Qed.

(** ** The loop's invariant *)

Lemma in_plate_same_config (s1 s2 : TemperatureProblem) (x y : R) :
  same_config s1 s2 -> in_plate s1 x y -> in_plate s2 x y.
Proof.
  unfold same_config, in_plate. intros (E1 & E2 & _). rewrite E1, E2. trivial.
Qed.

Lemma get_circle_and_rnd_point_in_plate (self : TemperatureProblem) (x y u : R) :
  in_plate self x y ->
  in_plate self (fst (get_circle_and_rnd_point self x y u))
                (snd (get_circle_and_rnd_point self x y u)).
Proof.
  intros [Hx Hy]. rewrite get_circle_and_rnd_point_displace.
  apply (displace_in_closed_rectangle (domain_of self)); assumption.
Qed.

Lemma same_config_set_CurrentPointArray (s : TemperatureProblem) (l : list R) :
  same_config (set_CurrentPointArray s l) s.
Proof. repeat split. Qed.

Lemma same_config_sym (s1 s2 : TemperatureProblem) :
  same_config s1 s2 -> same_config s2 s1.
Proof.
  unfold same_config. intros (A1 & A2 & A3 & A4). repeat split; congruence.
Qed.

Section Invariant.

Variable rand : nat -> R.
Variable interrupt : nat -> bool.
Variable self : TemperatureProblem.
Variables x y : R.

Lemma loop_invariant_start :
  loop_invariant self x y 0 (mkFrame (set_POI self (Some x) (Some y)) (Some x) (Some y)).
Proof.
  unfold loop_invariant. cbn [obj curr_x curr_y set_POI xPOI yPOI CurrentPointArray].
  split; [repeat split|]. split; [reflexivity|]. split; [reflexivity|].
  split; [exists x, y; auto|].
  split; [|trivial].
  exists []. rewrite app_nil_r. split; [reflexivity|]. split; [constructor | cbn; lia].
Qed.

Lemma after_loop_outcome (k n : nat) (f : frame) :
  loop_invariant self x y k f ->
  (DICE_ROLLS_PER_DOT <= length (CurrentPointArray (obj f)))%nat ->
  (k <= n)%nat ->
  loop_outcome interrupt self x y n (after_loop f).
Proof.
  intros (Hc & Hx & Hy & _ & (new & Hnew & Hall & Hk) & Hle) Hfull Hn.
  unfold after_loop. cbn [loop_outcome].
  split; [eapply same_config_trans; [apply same_config_set_CurrentPointArray | exact Hc]|].
  split; [exact Hx|]. split; [exact Hy|].
  exists new. rewrite <- Hnew.
  split; [reflexivity|]. split; [exact Hall|]. split; [lia|]. split; [exact Hfull|].
  intros H. specialize (Hle H). lia.
Qed.

Lemma while_loop_outcome (fuel k : nat) (f : frame) :
  loop_invariant self x y k f ->
  loop_outcome interrupt self x y (k + fuel) (while_loop rand interrupt fuel k f).
Proof.
  revert k f. induction fuel as [|fuel IH]; intros k f Hinv.
  - destruct (Nat.ltb_spec (length (CurrentPointArray (obj f))) DICE_ROLLS_PER_DOT) as [Hlt | Hge].
    + rewrite while_loop_pause by exact Hlt. rewrite Nat.add_0_r. split; assumption.
    + rewrite while_loop_done by exact Hge. apply (after_loop_outcome k); [assumption | assumption | lia].
  - destruct (Nat.ltb_spec (length (CurrentPointArray (obj f))) DICE_ROLLS_PER_DOT) as [Hlt | Hge].
    2:{ rewrite while_loop_done by exact Hge.
        apply (after_loop_outcome k); [assumption | assumption | lia]. }
    rewrite while_loop_step by exact Hlt.
    destruct (interrupt k) eqn:Hint.
    { unfold on_KeyboardInterrupt. cbn [loop_outcome set_POI xPOI yPOI].
      split; [reflexivity|]. split; [reflexivity|]. exists k. split; [lia | exact Hint]. }
    destruct Hinv as (Hc & Hx & Hy & (px & py & Hpx & Hpy & Hin) & (new & Hnew & Hall & Hk) & Hle).
    unfold try_body. rewrite Hpx, Hpy.
    pose proof (get_circle_and_rnd_point_in_plate (obj f) px py (rand k)) as Hstep.
    destruct (get_circle_and_rnd_point (obj f) px py (rand k)) as [nx ny].
    cbn [fst snd] in Hstep.
    replace (k + S fuel)%nat with (S k + fuel)%nat by lia.
    destruct (point_is_next_to_wall (obj f) nx ny) as [w|] eqn:Hw.
    + destruct (nth_error (borderTemps (obj f)) w) as [t|] eqn:Ht.
      * apply IH. unfold loop_invariant.
        cbn [obj curr_x curr_y set_CurrentPointArray xPOI yPOI CurrentPointArray
                 xDim yDim borderTemps CalculatedPOIArray].
        split; [exact Hc|]. split; [exact Hx|]. split; [exact Hy|].
        split; [exists x, y; rewrite Hx, Hy; auto|].
        split.
        -- exists (new ++ [t]). rewrite Hnew, app_assoc.
           split; [reflexivity|]. split.
           ++ apply Forall_app. split; [exact Hall|].
              constructor; [|constructor].
              destruct Hc as (_ & _ & Hb & _). rewrite <- Hb.
              eapply nth_error_In. exact Ht.
           ++ rewrite length_app. cbn [length]. lia.
        -- intros _. rewrite length_app. cbn [length]. lia.
      * cbn [loop_outcome]. split; [reflexivity|].
        split.
        { apply nth_error_None in Ht. apply point_is_next_to_wall_range in Hw.
          destruct Hc as (_ & _ & Hb & _). rewrite <- Hb. lia. }
        split; [exact Hx|]. split; [exact Hy|].
        exists new. split; [exact Hnew | exact Hall].
    + apply IH. unfold loop_invariant. cbn [obj curr_x curr_y].
      split; [exact Hc|]. split; [exact Hx|]. split; [exact Hy|].
      split.
      * exists nx, ny. split; [reflexivity|]. split; [reflexivity|].
        intros Hxy. apply (in_plate_same_config (obj f) self); [exact Hc|].
        apply Hstep. apply (in_plate_same_config self (obj f)); [apply same_config_sym; exact Hc|].
        apply Hin. exact Hxy.
      * split; [|exact Hle].
        exists new. split; [exact Hnew|]. split; [exact Hall | lia].
Qed.

(** The outcome of a call on a point the validation accepts. *)
Lemma get_poi_temp_outcome (fuel : nat) :
  poi_is_inside (set_POI self (Some x) (Some y)) = Returned true ->
  loop_outcome interrupt self x y fuel (get_poi_temp rand interrupt fuel self x y).
Proof.
  intros Hin. unfold get_poi_temp. cbv zeta. rewrite Hin.
  apply (while_loop_outcome fuel 0). apply loop_invariant_start.
Qed.

End Invariant.

Lemma Rleb_range_false (a w : R) : Rleb 0 a && Rleb a w = false -> ~ (0 <= a <= w).
Proof.
  intros H [H1 H2]. apply andb_false_iff in H.
  destruct H as [H | H]; apply Rleb_false in H; lra.
Qed.

(** A call either enters the loop, or rejects the point. *)
Lemma get_poi_temp_cases (rand : nat -> R) (interrupt : nat -> bool) (fuel : nat)
      (self : TemperatureProblem) (x y : R) :
  (poi_is_inside (set_POI self (Some x) (Some y)) = Returned true /\
   loop_outcome interrupt self x y fuel (get_poi_temp rand interrupt fuel self x y)) \/
  (~ (0 <= x <= xDim self) /\ ~ (0 <= y <= yDim self) /\
   get_poi_temp rand interrupt fuel self x y =
   Raise (Exception "POI must be inside initial rectangle!") (set_POI self (Some x) (Some y))).
Proof.
  pose proof (poi_is_inside_set_POI self x y) as Hin.
  destruct (Rleb 0 x && Rleb x (xDim self)) eqn:Hx;
    [|destruct (Rleb 0 y && Rleb y (yDim self)) eqn:Hy]; cbn [orb] in Hin.
  - left. split; [exact Hin | apply get_poi_temp_outcome; exact Hin].
  - left. split; [exact Hin | apply get_poi_temp_outcome; exact Hin].
  - right. apply Rleb_range_false in Hx, Hy.
    split; [exact Hx|]. split; [exact Hy|]. apply get_poi_temp_rejects; assumption.
Qed.

(** [poi_is_inside] reads the point of interest and the two dimensions. *)
Lemma poi_is_inside_same_config (s : TemperatureProblem) (self : TemperatureProblem) (x y : R) :
  same_config s self -> xPOI s = Some x -> yPOI s = Some y ->
  poi_is_inside s = poi_is_inside (set_POI self (Some x) (Some y)).
Proof.
  intros (E1 & E2 & _) Hx Hy. unfold poi_is_inside.
  cbn [set_POI xPOI yPOI xDim yDim]. rewrite Hx, Hy, E1, E2. reflexivity.
Qed.

(** ** The validation, in full *)

(** [get_poi_temp] raises its "POI must be inside initial rectangle!" exactly
    when neither coordinate is in its range; it then has made no step (the
    fuel does not matter) and has only assigned [xPOI] and [yPOI]. *)
Theorem get_poi_temp_raises_iff_outside (rand : nat -> R) (interrupt : nat -> bool)
        (fuel : nat) (self : TemperatureProblem) (x y : R) :
  get_poi_temp rand interrupt fuel self x y =
  Raise (Exception "POI must be inside initial rectangle!") (set_POI self (Some x) (Some y))
  <->
  (~ (0 <= x <= xDim self) /\ ~ (0 <= y <= yDim self)).
Proof.
  split.
  - intros Hraise.
    destruct (get_poi_temp_cases rand interrupt fuel self x y) as [[_ Hout] | (Hx & Hy & _)].
    + rewrite Hraise in Hout. cbn [loop_outcome] in Hout.
      destruct Hout as [He _]. discriminate.
    + split; assumption.
  - intros [Hx Hy]. apply get_poi_temp_rejects; assumption.
Qed.

(** ** What a returned mean is made of *)

(** A mean that [get_poi_temp] returns is the mean of the samples the object
    held at the call followed by new ones; each new sample is one of the
    object's wall temperatures and cost at least one step; together they are
    at least 1000, and exactly 1000 when the object held at most 1000. *)
Theorem get_poi_temp_mean_shape (rand : nat -> R) (interrupt : nat -> bool)
        (fuel : nat) (self : TemperatureProblem) (x y t : R) (s : TemperatureProblem) :
  get_poi_temp rand interrupt fuel self x y = Return (Some t) s ->
  exists new,
    t = mean (CurrentPointArray self ++ new) /\
    Forall (fun b => In b (borderTemps self)) new /\
    (length new <= fuel)%nat /\
    (DICE_ROLLS_PER_DOT <= length (CurrentPointArray self ++ new))%nat /\
    ((length (CurrentPointArray self) <= DICE_ROLLS_PER_DOT)%nat ->
     length (CurrentPointArray self ++ new) = DICE_ROLLS_PER_DOT).
Proof.
  intros Hret.
  destruct (get_poi_temp_cases rand interrupt fuel self x y) as [[_ Hout] | (_ & _ & Hr)];
    [|rewrite Hret in Hr; discriminate].
  rewrite Hret in Hout. cbn [loop_outcome] in Hout.
  destruct Hout as (_ & _ & _ & new & H). exists new. exact H.
Qed.

(** On the plate, from (5, 5), with every draw returning 0, on an object that
    holds the sample 100: 999 trials are run. *)
Lemma plate_leftover_east :
  get_poi_temp (fun _ => 0) no_interrupt 1998 (set_CurrentPointArray plate [100]) 5 5 =
  Return (Some (mean (100 :: repeat 5 999)))
         (set_CurrentPointArray (set_POI plate (Some 5) (Some 5)) []).
Proof.
  unfold get_poi_temp. cbv zeta.
  change (poi_is_inside (set_POI (set_CurrentPointArray plate [100]) (Some 5) (Some 5)))
    with (poi_is_inside (set_POI plate (Some 5) (Some 5))).
  rewrite plate_accepts_centre.
  pose proof (while_loop_trials (fun _ => 0) 5 5 999 1998 0
                (set_POI (set_CurrentPointArray plate [100]) (Some 5) (Some 5))
                eq_refl eq_refl eq_refl eq_refl) as H.
  change (domain_of (set_POI (set_CurrentPointArray plate [100]) (Some 5) (Some 5)))
    with (domain_of plate) in H.
  change 1998%nat with (2 * 999 + 0)%nat in H.
  rewrite plate_trials_east in H.
  exact H.
Qed.

Lemma get_poi_temp_mean_shape_witness :
  get_poi_temp (fun _ => 0) no_interrupt 1998 (set_CurrentPointArray plate [100]) 5 5 =
  Return (Some (mean (100 :: repeat 5 999)))
         (set_CurrentPointArray (set_POI plate (Some 5) (Some 5)) []) /\
  exists new,
    mean (100 :: repeat 5 999) = mean ([100] ++ new) /\
    Forall (fun b => In b [10; 5; 5; 20]) new /\
    (length new <= 1998)%nat /\
    length ([100] ++ new) = DICE_ROLLS_PER_DOT.
Proof.
  split; [exact plate_leftover_east|].
  destruct (get_poi_temp_mean_shape _ _ _ _ _ _ _ _ plate_leftover_east)
    as (new & H1 & H2 & H3 & _ & H5).
  exists new. split; [exact H1|]. split; [exact H2|]. split; [exact H3|].
  apply H5. cbn [set_CurrentPointArray CurrentPointArray length].
  rewrite DICE_ROLLS_PER_DOT_value. lia.
Defined.

(** ** The estimate is between the wall temperatures *)

(** On an object that holds no sample, a mean that [get_poi_temp] returns is
    between any two bounds of the object's wall temperatures; when the two
    bounds are equal, that is when the walls all have one temperature, it is
    that temperature. *)
Theorem get_poi_temp_between_wall_temperatures
        (rand : nat -> R) (interrupt : nat -> bool) (fuel : nat)
        (self : TemperatureProblem) (x y t lo hi : R) (s : TemperatureProblem) :
  CurrentPointArray self = [] ->
  (forall b, In b (borderTemps self) -> lo <= b <= hi) ->
  get_poi_temp rand interrupt fuel self x y = Return (Some t) s ->
  lo <= t <= hi /\ (lo = hi -> t = lo).
Proof.
  intros Hempty Hb Hret.
  destruct (get_poi_temp_mean_shape _ _ _ _ _ _ _ _ Hret) as (new & Ht & Hall & _ & Hlen & _).
  rewrite Hempty in Ht, Hlen. cbn [app] in Ht, Hlen.
  assert (Hbounds : lo <= t <= hi).
  { rewrite Ht. apply mean_bounds.
    - rewrite DICE_ROLLS_PER_DOT_value in Hlen. lia.
    - eapply Forall_impl; [|exact Hall]. exact Hb. }
  split; [exact Hbounds|]. intros E. lra.
Qed.

Lemma get_poi_temp_between_wall_temperatures_witness :
  CurrentPointArray plate = [] /\
  (forall b, In b (borderTemps plate) -> 5 <= b <= 20) /\
  get_poi_temp (fun _ => 0) no_interrupt 2000 plate 5 5 =
  Return (Some 5) (set_CurrentPointArray (set_POI plate (Some 5) (Some 5)) []) /\
  5 <= 5 <= 20.
Proof.
  assert (Hb : forall b, In b (borderTemps plate) -> 5 <= b <= 20).
  { cbn [plate borderTemps In]. intros b [H | [H | [H | [H | []]]]]; lra. }
  split; [reflexivity|]. split; [exact Hb|]. split; [exact plate_get_poi_temp_east|].
  exact (proj1 (get_poi_temp_between_wall_temperatures
                  (fun _ => 0) no_interrupt 2000 plate 5 5 5 5 20 _
                  eq_refl Hb plate_get_poi_temp_east)).
Defined.

(** ** The step and the wall test *)

(** The point [get_circle_and_rnd_point] returns is on the circle around the
    current position whose radius is the minimum the function takes. *)
Theorem get_circle_and_rnd_point_on_circle (self : TemperatureProblem) (x y u : R) :
  (fst (get_circle_and_rnd_point self x y u) - x) * (fst (get_circle_and_rnd_point self x y u) - x) +
  (snd (get_circle_and_rnd_point self x y u) - y) * (snd (get_circle_and_rnd_point self x y u) - y) =
  min4 (xDim self - x) (yDim self - y) x y * min4 (xDim self - x) (yDim self - y) x y.
Proof.
  unfold get_circle_and_rnd_point. cbv zeta. cbn [fst snd].
  set (r := min4 (xDim self - x) (yDim self - y) x y).
  pose proof (sin2_cos2 (u * 2 * PI)) as H. unfold Rsqr in H.
  replace ((x + r * cos (u * 2 * PI) - x) * (x + r * cos (u * 2 * PI) - x) +
           (y + r * sin (u * 2 * PI) - y) * (y + r * sin (u * 2 * PI) - y))
    with (r * r * (sin (u * 2 * PI) * sin (u * 2 * PI) + cos (u * 2 * PI) * cos (u * 2 * PI)))
    by ring.
  rewrite H. ring.
Qed.

Lemma point_is_next_to_wall_None_radius (self : TemperatureProblem) (x y : R) :
  point_is_next_to_wall self x y = None <->
  WALL_EPSILON < min4 (xDim self - x) (yDim self - y) x y.
Proof.
  rewrite point_is_next_to_wall_None.
  pose proof (min4_spec (xDim self - x) (yDim self - y) x y) as (H1 & H2 & H3 & H4 & H5).
  split.
  - intros (A1 & A2 & A3 & A4). destruct H5 as [E | [E | [E | E]]]; rewrite E; assumption.
  - intros H. repeat split; lra.
Qed.

(** The wall test says "no wall" exactly at the points where the radius of the
    next step is more than [WALL_EPSILON]: a walk that goes on never makes a
    step of radius 0.05 or less. *)
Theorem point_is_next_to_wall_None_iff_radius (self : TemperatureProblem) (x y : R) :
  point_is_next_to_wall self x y = None <->
  WALL_EPSILON < min4 (xDim self - x) (yDim self - y) x y.
Proof.
  rewrite point_is_next_to_wall_None.
  pose proof (min4_spec (xDim self - x) (yDim self - y) x y) as (H1 & H2 & H3 & H4 & H5).
  split.
  - intros (A1 & A2 & A3 & A4). destruct H5 as [E | [E | [E | E]]]; rewrite E; assumption.
  - intros H. repeat split; lra.
Qed.

(** ** Query points on a wall *)

Section OneStepTrials.

Variable rand : nat -> R.
Variable self : TemperatureProblem.
Variables x y : R.
Variable w : nat.
Variable t : R.

Hypothesis first_step_hits :
  forall u, point_is_next_to_wall self (fst (get_circle_and_rnd_point self x y u))
                                       (snd (get_circle_and_rnd_point self x y u)) = Some w.
Hypothesis wall_temperature : nth_error (borderTemps self) w = Some t.

(** When every first step lands next to wall [w], each trial is one step. *)
Lemma one_step_while_loop (n fuel k : nat) (samples : list R) :
  (length samples + n = DICE_ROLLS_PER_DOT)%nat ->
  (n <= fuel)%nat ->
  while_loop rand no_interrupt fuel k
    (mkFrame (set_CurrentPointArray (set_POI self (Some x) (Some y)) samples)
             (Some x) (Some y)) =
  Return (Some (mean (samples ++ repeat t n)))
         (set_CurrentPointArray (set_POI self (Some x) (Some y)) []).
Proof.
  revert fuel k samples. induction n as [|n IH]; intros fuel k samples Hlen Hfuel.
  - rewrite while_loop_done by (cbn [obj set_CurrentPointArray CurrentPointArray]; lia).
    cbn [repeat]. rewrite app_nil_r. reflexivity.
  - destruct fuel as [|fuel]; [lia|].
    rewrite while_loop_step by (cbn [obj set_CurrentPointArray CurrentPointArray]; lia).
    unfold no_interrupt at 1. cbv beta.
    pose proof (first_step_hits (rand k)) as Hw.
    unfold try_body. cbn [obj curr_x curr_y].
    change (get_circle_and_rnd_point
              (set_CurrentPointArray (set_POI self (Some x) (Some y)) samples))
      with (get_circle_and_rnd_point self).
    change (point_is_next_to_wall
              (set_CurrentPointArray (set_POI self (Some x) (Some y)) samples))
      with (point_is_next_to_wall self).
    destruct (get_circle_and_rnd_point self x y (rand k)) as [nx ny].
    cbn [fst snd] in Hw. rewrite Hw.
    cbn [set_CurrentPointArray set_POI CurrentPointArray borderTemps xPOI yPOI
           xDim yDim CalculatedPOIArray].
    rewrite wall_temperature.
    specialize (IH fuel (S k) (samples ++ [t])).
    rewrite length_app in IH. cbn [length] in IH.
    rewrite <- app_assoc in IH. cbn [app] in IH.
    change (t :: repeat t n) with (repeat t (S n)) in IH.
    apply IH; lia.
Qed.

Lemma one_step_get_poi_temp (fuel : nat) :
  poi_is_inside (set_POI self (Some x) (Some y)) = Returned true ->
  CurrentPointArray self = [] ->
  (DICE_ROLLS_PER_DOT <= fuel)%nat ->
  get_poi_temp rand no_interrupt fuel self x y =
  Return (Some t) (set_CurrentPointArray (set_POI self (Some x) (Some y)) []).
Proof.
  intros Hin Hempty Hfuel. unfold get_poi_temp. rewrite Hin.
  pose proof (one_step_while_loop DICE_ROLLS_PER_DOT fuel 0 [] eq_refl Hfuel) as H.
  cbn [app] in H. rewrite mean_repeat in H by discriminate.
  rewrite <- H. f_equal. f_equal.
  unfold set_CurrentPointArray, set_POI. cbn. rewrite Hempty. reflexivity.
Qed.

End OneStepTrials.

(** For a query point on the edge of the plate, on an object with four wall
    temperatures and no sample: the step does not move the point, the wall
    test at the point answers some wall [w], and with 1000 steps or more
    [get_poi_temp] returns [borderTemps[w]], whatever the draws. *)
Theorem get_poi_temp_on_wall (rand : nat -> R) (fuel : nat)
        (self : TemperatureProblem) (x y : R) :
  in_plate self x y ->
  x = 0 \/ y = 0 \/ x = xDim self \/ y = yDim self ->
  length (borderTemps self) = 4%nat ->
  CurrentPointArray self = [] ->
  (DICE_ROLLS_PER_DOT <= fuel)%nat ->
  (forall u, get_circle_and_rnd_point self x y u = (x, y)) /\
  exists w,
    point_is_next_to_wall self x y = Some w /\
    get_poi_temp rand no_interrupt fuel self x y =
    Return (Some (nth w (borderTemps self) 0))
           (set_CurrentPointArray (set_POI self (Some x) (Some y)) []).
Proof.
  intros [Hx Hy] Hedge Htemps Hempty Hfuel.
  assert (Hr : min4 (xDim self - x) (yDim self - y) x y = 0).
  { pose proof (min4_spec (xDim self - x) (yDim self - y) x y) as (H1 & H2 & H3 & H4 & H5).
    destruct H5 as [E | [E | [E | E]]]; destruct Hedge as [D | [D | [D | D]]]; lra. }
  assert (Hstay : forall u, get_circle_and_rnd_point self x y u = (x, y)).
  { intros u. unfold get_circle_and_rnd_point. cbv zeta. rewrite Hr. f_equal; lra. }
  split; [exact Hstay|].
  destruct (point_is_next_to_wall self x y) as [w|] eqn:Hw.
  - exists w. split; [reflexivity|].
    assert (Hlt : (w < length (borderTemps self))%nat)
      by (rewrite Htemps; eapply point_is_next_to_wall_range; exact Hw).
    apply (one_step_get_poi_temp rand self x y w).
    + intros u. rewrite Hstay. exact Hw.
    + apply nth_error_nth_default. exact Hlt.
    + apply poi_is_inside_one_coordinate. left. exact Hx.
    + exact Hempty.
    + exact Hfuel.
  - apply point_is_next_to_wall_None_radius in Hw. rewrite Hr in Hw.
    pose proof WALL_EPSILON_pos. lra.
Qed.

Lemma get_poi_temp_on_wall_witness :
  in_plate plate 7 0 /\
  (7 = 0 \/ 0 = 0 \/ 7 = xDim plate \/ 0 = yDim plate) /\
  length (borderTemps plate) = 4%nat /\ CurrentPointArray plate = [] /\
  (DICE_ROLLS_PER_DOT <= 1000)%nat /\
  get_poi_temp (fun k => / (INR k + 2)) no_interrupt 1000 plate 7 0 =
  Return (Some 10) (set_CurrentPointArray (set_POI plate (Some 7) (Some 0)) []).
Proof.
  assert (H1 : in_plate plate 7 0) by (unfold in_plate; cbn [plate xDim yDim]; lra).
  assert (H2 : 7 = 0 \/ 0 = 0 \/ 7 = xDim plate \/ 0 = yDim plate) by (right; left; reflexivity).
  assert (H3 : (DICE_ROLLS_PER_DOT <= 1000)%nat) by (rewrite DICE_ROLLS_PER_DOT_value; lia).
  split; [exact H1|]. split; [exact H2|]. split; [reflexivity|]. split; [reflexivity|].
  split; [exact H3|].
  destruct (get_poi_temp_on_wall (fun k => / (INR k + 2)) 1000 plate 7 0
                                 H1 H2 eq_refl eq_refl H3) as [_ [w [Hw Hret]]].
  rewrite Hret. f_equal. f_equal.
  assert (Hb : point_is_next_to_wall plate 7 0 = Some 0%nat).
  { unfold point_is_next_to_wall. cbn [plate xDim yDim]. eval_Rleb. reflexivity. }
  rewrite Hb in Hw. inversion Hw. reflexivity.
Defined.

(** ** What a call can raise, and when it returns [None] *)

Lemma plate_cancelled_east :
  get_poi_temp (fun _ => 0) (interrupt_at 2) 3 plate 5 5 =
  Return None (set_POI (set_CurrentPointArray (set_POI plate (Some 5) (Some 5)) []) None None).
Proof.
  pose proof (plate_first_trial_east (interrupt_at 2) eq_refl eq_refl) as H.
  unfold get_poi_temp in *. cbv zeta in *. rewrite plate_accepts_centre in *.
  rewrite (while_loop_interrupted _ _ 2 3 _ _ H eq_refl) by lia.
  reflexivity.
Qed.

(** [get_poi_temp] raises no [TypeError]; it raises [IndexError] only on an
    object with fewer than four wall temperatures; and it returns [None] only
    when an interrupt arrived during one of the iterations it ran. *)
Theorem get_poi_temp_what_it_raises (rand : nat -> R) (interrupt : nat -> bool)
        (fuel : nat) (self : TemperatureProblem) (x y : R) :
  (forall e s,
      get_poi_temp rand interrupt fuel self x y = Raise e s ->
      e = Exception "POI must be inside initial rectangle!" \/
      (e = IndexError /\ (length (borderTemps self) < 4)%nat)) /\
  (forall s,
      get_poi_temp rand interrupt fuel self x y = Return None s ->
      exists j, (j < fuel)%nat /\ interrupt j = true).
Proof.
  destruct (get_poi_temp_cases rand interrupt fuel self x y) as [[_ Hout] | (_ & _ & Hr)].
  - split.
    + intros e s H. rewrite H in Hout. cbn [loop_outcome] in Hout.
      destruct Hout as (He & Hlen & _). right. split; assumption.
    + intros s H. rewrite H in Hout. cbn [loop_outcome] in Hout.
      destruct Hout as (_ & _ & Hj). exact Hj.
  - rewrite Hr. split.
    + intros e s H. inversion H. left. reflexivity.
    + intros s H. discriminate.
Qed.

Lemma get_poi_temp_what_it_raises_witness :
  get_poi_temp (fun _ => 0) (interrupt_at 2) 3 plate 5 5 =
  Return None (set_POI (set_CurrentPointArray (set_POI plate (Some 5) (Some 5)) []) None None) /\
  exists j, (j < 3)%nat /\ interrupt_at 2 j = true.
Proof.
  split; [exact plate_cancelled_east|].
  exact (proj2 (get_poi_temp_what_it_raises (fun _ => 0) (interrupt_at 2) 3 plate 5 5)
               _ plate_cancelled_east).
Defined.

(** ** A missing wall temperature *)

Lemma plate_step_south :
  get_circle_and_rnd_point plate 5 5 (3 / 4) = (5, 0).
Proof.
  unfold get_circle_and_rnd_point, min4. cbn [plate xDim yDim].
  replace (3 / 4 * 2 * PI) with (3 * (PI / 2)) by lra.
  rewrite cos_3PI2, sin_3PI2.
  replace (Rmin (Rmin (Rmin (15 - 5) (10 - 5)) 5) 5) with 5 by (eval_Rmin; lra).
  f_equal; lra.
Qed.

Lemma plate_step_east_again :
  get_circle_and_rnd_point plate 10 5 0 = (15, 5).
Proof.
  unfold get_circle_and_rnd_point, min4. cbn [plate xDim yDim].
  replace (0 * 2 * PI) with 0 by lra.
  rewrite cos_0, sin_0.
  replace (Rmin (Rmin (Rmin (15 - 10) (10 - 5)) 10) 5) with 5 by (eval_Rmin; lra).
  f_equal; lra.
Qed.

Lemma plate_walls_south_east :
  point_is_next_to_wall plate 5 0 = Some 0%nat /\
  point_is_next_to_wall plate 15 5 = Some 1%nat.
Proof.
  split; unfold point_is_next_to_wall; cbn [plate xDim yDim]; eval_Rleb; reflexivity.
Qed.

(** On [short_plate], from (5, 5): the first step lands next to the bottom
    wall, whose temperature is recorded; the third lands next to the right
    wall, which has none. *)
Lemma short_plate_raises :
  get_poi_temp south_then_east no_interrupt 3 short_plate 5 5 =
  Raise IndexError (set_CurrentPointArray (set_POI short_plate (Some 5) (Some 5)) [10]).
Proof.
  unfold get_poi_temp. cbv zeta.
  rewrite poi_is_inside_one_coordinate by (left; cbn [short_plate xDim]; lra).
  assert (Hsmall : forall l : list R, (length l <= 1)%nat ->
                                      (length l < DICE_ROLLS_PER_DOT)%nat)
    by (intros l Hl; rewrite DICE_ROLLS_PER_DOT_value; lia).
  rewrite while_loop_step by (apply Hsmall; cbn; lia).
  unfold no_interrupt at 1. cbv beta.
  rewrite (try_body_hit (south_then_east 0) 5 5 5 0 _ 0%nat).
  2:{ exact plate_step_south. }
  2:{ exact (proj1 plate_walls_south_east). }
  2:{ cbn. lia. }
  cbn [set_POI set_CurrentPointArray CurrentPointArray borderTemps xPOI yPOI xDim yDim
         CalculatedPOIArray short_plate app nth].
  rewrite while_loop_step by (apply Hsmall; cbn; lia).
  unfold no_interrupt at 1. cbv beta.
  rewrite (try_body_move (south_then_east 1) 5 5 10 5).
  2:{ exact plate_step_east. }
  2:{ exact (proj2 plate_inner_points). }
  rewrite while_loop_step by (apply Hsmall; cbn; lia).
  unfold no_interrupt at 1. cbv beta.
  unfold try_body. cbn [obj curr_x curr_y].
  change (south_then_east 2) with 0.
  match goal with
  | |- context [get_circle_and_rnd_point ?o 10 5 0] =>
      change (get_circle_and_rnd_point o 10 5 0) with (get_circle_and_rnd_point plate 10 5 0)
  end.
  rewrite plate_step_east_again.
  match goal with
  | |- context [point_is_next_to_wall ?o 15 5] =>
      change (point_is_next_to_wall o 15 5) with (point_is_next_to_wall plate 15 5)
  end.
  rewrite (proj2 plate_walls_south_east). reflexivity.
Qed.

(** When [get_poi_temp] raises [IndexError] the object has fewer than four
    wall temperatures, and the samples are not cleared: the object keeps the
    samples it held and those the call has collected, with the point of
    interest. *)
Theorem get_poi_temp_IndexError_keeps_samples
        (rand : nat -> R) (interrupt : nat -> bool) (fuel : nat)
        (self : TemperatureProblem) (x y : R) (s : TemperatureProblem) :
  get_poi_temp rand interrupt fuel self x y = Raise IndexError s ->
  (length (borderTemps self) < 4)%nat /\
  xPOI s = Some x /\ yPOI s = Some y /\
  exists new,
    CurrentPointArray s = CurrentPointArray self ++ new /\
    Forall (fun b => In b (borderTemps self)) new.
Proof.
  intros Hraise.
  destruct (get_poi_temp_cases rand interrupt fuel self x y) as [[_ Hout] | (_ & _ & Hr)];
    [|rewrite Hraise in Hr; discriminate].
  rewrite Hraise in Hout. cbn [loop_outcome] in Hout.
  destruct Hout as (_ & Hlen & Hx & Hy & Hnew).
  split; [exact Hlen|]. split; [exact Hx|]. split; [exact Hy|]. exact Hnew.
Qed.

Lemma get_poi_temp_IndexError_keeps_samples_witness :
  get_poi_temp south_then_east no_interrupt 3 short_plate 5 5 =
  Raise IndexError (set_CurrentPointArray (set_POI short_plate (Some 5) (Some 5)) [10]) /\
  (length (borderTemps short_plate) < 4)%nat /\
  CurrentPointArray (set_CurrentPointArray (set_POI short_plate (Some 5) (Some 5)) [10]) = [10].
Proof.
  split; [exact short_plate_raises|].
  split; [|reflexivity].
  exact (proj1 (get_poi_temp_IndexError_keeps_samples
                  south_then_east no_interrupt 3 short_plate 5 5 _ short_plate_raises)).
Defined.

(** ** The walk stays on the plate *)

(** While a call for a query point of the closed rectangle is running, the
    walk is at a point of the closed rectangle, and fewer than 1000 samples
    are held. *)
Theorem get_poi_temp_walk_stays_in_plate
        (rand : nat -> R) (interrupt : nat -> bool) (fuel : nat)
        (self : TemperatureProblem) (x y : R) (f : frame) :
  in_plate self x y ->
  get_poi_temp rand interrupt fuel self x y = Continue f ->
  (exists px py, curr_x f = Some px /\ curr_y f = Some py /\ in_plate self px py) /\
  (length (CurrentPointArray (obj f)) < DICE_ROLLS_PER_DOT)%nat.
Proof.
  intros Hxy Hrun.
  destruct (get_poi_temp_cases rand interrupt fuel self x y) as [[_ Hout] | (_ & _ & Hr)];
    [|rewrite Hrun in Hr; discriminate].
  rewrite Hrun in Hout. cbn [loop_outcome] in Hout.
  destruct Hout as [(_ & _ & _ & (px & py & Hpx & Hpy & Hin) & _) Hlen].
  split; [|exact Hlen].
  exists px, py. split; [exact Hpx|]. split; [exact Hpy|]. apply Hin. exact Hxy.
Qed.

Lemma plate_one_step_east :
  get_poi_temp (fun _ => 0) no_interrupt 1 plate 5 5 =
  Continue (mkFrame (set_POI plate (Some 5) (Some 5)) (Some 10) (Some 5)).
Proof.
  unfold get_poi_temp. cbv zeta. rewrite plate_accepts_centre.
  assert (Hlen : (length (CurrentPointArray (set_POI plate (Some 5%R) (Some 5%R))) <
                  DICE_ROLLS_PER_DOT)%nat)
    by (cbn [set_POI CurrentPointArray plate length]; rewrite DICE_ROLLS_PER_DOT_value; lia).
  rewrite while_loop_step by exact Hlen.
  unfold no_interrupt at 1. cbv beta.
  rewrite (try_body_move 0 5 5 10 5).
  - apply while_loop_pause. exact Hlen.
  - exact plate_step_east.
  - exact (proj2 plate_inner_points).
Qed.

Lemma get_poi_temp_walk_stays_in_plate_witness :
  in_plate plate 5 5 /\
  get_poi_temp (fun _ => 0) no_interrupt 1 plate 5 5 =
  Continue (mkFrame (set_POI plate (Some 5) (Some 5)) (Some 10) (Some 5)) /\
  exists px py, Some 10 = Some px /\ Some 5 = Some py /\ in_plate plate px py.
Proof.
  assert (H : in_plate plate 5 5) by (unfold in_plate; cbn [plate xDim yDim]; lra).
  split; [exact H|]. split; [exact plate_one_step_east|].
  exact (proj1 (get_poi_temp_walk_stays_in_plate
                  (fun _ => 0) no_interrupt 1 plate 5 5 _ H plate_one_step_east)).
Defined.

(** ** Reading [poi_is_inside] between calls *)

(** The property [poi_is_inside] raises [TypeError] on a new object and on an
    object whose last call was cancelled; after a call that returned a mean
    it is [True], and after a call that rejected its point it is [False]. *)
Theorem poi_is_inside_between_calls
        (rand : nat -> R) (interrupt : nat -> bool) (fuel : nat)
        (self : TemperatureProblem) (x y : R) :
  (forall xdim ydim temp new,
      __init__ xdim ydim temp = Returned new -> poi_is_inside new = Raised TypeError) /\
  (forall s,
      get_poi_temp rand interrupt fuel self x y = Return None s ->
      poi_is_inside s = Raised TypeError) /\
  (forall t s,
      get_poi_temp rand interrupt fuel self x y = Return (Some t) s ->
      poi_is_inside s = Returned true) /\
  (forall msg s,
      get_poi_temp rand interrupt fuel self x y = Raise (Exception msg) s ->
      poi_is_inside s = Returned false).
Proof.
  split.
  { intros xdim ydim temp new H. inversion H. reflexivity. }
  pose proof (poi_is_inside_set_POI self x y) as Hb.
  destruct (poi_is_inside (set_POI self (Some x) (Some y))) as [[|]|e] eqn:Hin;
    [| |discriminate].
  - pose proof (get_poi_temp_outcome rand interrupt self x y fuel Hin) as Hout.
    split; [|split].
    + intros s H. rewrite H in Hout. cbn [loop_outcome] in Hout.
      destruct Hout as (Hx & _). unfold poi_is_inside. rewrite Hx. reflexivity.
    + intros t s H. rewrite H in Hout. cbn [loop_outcome] in Hout.
      destruct Hout as (Hc & Hx & Hy & _).
      rewrite (poi_is_inside_same_config s self x y Hc Hx Hy). exact Hin.
    + intros msg s H. rewrite H in Hout. cbn [loop_outcome] in Hout.
      destruct Hout as (He & _). discriminate.
  - unfold get_poi_temp. cbv zeta. rewrite Hin.
    split; [|split]; try (intros; discriminate).
    intros msg s H. inversion H. subst s. exact Hin.
Qed.

Lemma poi_is_inside_between_calls_witness :
  get_poi_temp (fun _ => 0) no_interrupt 2000 plate 5 5 =
  Return (Some 5) (set_CurrentPointArray (set_POI plate (Some 5) (Some 5)) []) /\
  poi_is_inside (set_CurrentPointArray (set_POI plate (Some 5) (Some 5)) []) = Returned true.
Proof.
  split; [exact plate_get_poi_temp_east|].
  exact (proj1 (proj2 (proj2 (poi_is_inside_between_calls
                                (fun _ => 0) no_interrupt 2000 plate 5 5)))
               _ _ plate_get_poi_temp_east).
Defined.
